(** * VICEmergency feed: the geo_location platform

    A shallow embedding of
    [custom_components/vicemergency_feed/geo_location.py]: the feed entity
    manager ([VICEmergencyFeedEntityManager]) and the location entity
    ([VICEmergencyLocationEvent]), with the properties of the icon rule, the
    attribute projection, the render pass and the tear-down hooks. *)

From Stdlib Require Import ZArith String Ascii List Bool Lia.
From Stdlib Require Import SpecFloat.
From stdpp Require Import base option gmap strings list fin_maps.

Local Open Scope string_scope.

(** ** Python values

    The values an attribute of a feed entry, of an entity or of the manager
    can hold: the JSON values of the feed ([None], [bool], [int], [float],
    [str], [list], [dict]), the coordinate tuple, the publication timestamp,
    and references to callables and objects that belong to the host.  A
    [str] is its sequence of characters. *)

#[local] Unset Elimination Schemes.
Inductive pyval : Type :=
| PNone
| PBool (b : bool)
| PInt (z : Z)
| PFloat (f : spec_float)
| PStr (s : string)
| PList (l : list pyval)
| PTuple (l : list pyval)
| PDict (kv : list (string * pyval))
| PDatetime (t : Z)
| PFunc (h : nat)
| PObject (ref : nat).
#[local] Set Elimination Schemes.

(** [bool(v)]: what [if v:] and [v or ...] test. *)
Definition truthy (v : pyval) : bool :=
  match v with
  | PNone => false
  | PBool b => b
  | PInt z => negb (Z.eqb z 0)
  | PFloat (S754_zero _) => false
  | PFloat _ => true
  | PStr s => negb (String.eqb s "")
  | PList l | PTuple l => negb (Nat.eqb (length l) 0)
  | PDict kv => negb (Nat.eqb (length kv) 0)
  | PDatetime _ | PFunc _ | PObject _ => true
  end.

(** [isinstance(v, bool)]. *)
Definition isinstance_bool (v : pyval) : bool :=
  match v with PBool _ => true | _ => false end.

(** [v == s] for a [str] literal [s]: no value of another type equals a
    [str]. *)
Definition py_eq_str (v : pyval) (s : string) : bool :=
  match v with PStr s' => String.eqb s' s | _ => false end.

(** Whether [hash(v)] succeeds. *)
Fixpoint hashable (v : pyval) : bool :=
  match v with
  | PList _ | PDict _ => false
  | PTuple l => forallb hashable l
  | _ => true
  end.

(** ** Exceptions and outcomes *)

Inductive exn : Type :=
| TypeError
| IndexError
| KeyError
| AttributeError (name : string)
| HostError (code : nat).

Inductive outcome (A : Type) : Type :=
| Returned (a : A)
| Raised (e : exn).
Arguments Returned {A} a.
Arguments Raised {A} e.

(** [a + b] where one operand is a [str], the only way the source uses [+]:
    concatenation of two strings, and [TypeError] for every other operand. *)
Definition py_add (a b : pyval) : outcome pyval :=
  match a, b with
  | PStr x, PStr y => Returned (PStr (x ++ y))
  | _, _ => Raised TypeError
  end.

(** [v[i]] for a literal index [i >= 0]. *)
Definition py_getitem (v : pyval) (i : nat) : outcome pyval :=
  match v with
  | PList l | PTuple l =>
      match nth_error l i with
      | Some x => Returned x
      | None => Raised IndexError
      end
  | PStr s =>
      match String.get i s with
      | Some c => Returned (PStr (String c EmptyString))
      | None => Raised IndexError
      end
  | PDict _ => Raised KeyError
  | _ => Raised TypeError
  end.

(** ** A state and exception monad

    A method runs on a mutable state and either returns or raises; the
    state at the raise keeps the assignments made before it. *)

Definition M (S A : Type) : Type := S -> outcome A * S.

Definition ret {S A} (a : A) : M S A := fun s => (Returned a, s).

Definition raise {S A} (e : exn) : M S A := fun s => (Raised e, s).

Definition bind {S A B} (m : M S A) (k : A -> M S B) : M S B :=
  fun s =>
    match m s with
    | (Returned a, s') => k a s'
    | (Raised e, s') => (Raised e, s')
    end.

Definition liftO {S A} (o : outcome A) : M S A := fun s => (o, s).

Definition gets {S A} (f : S -> A) : M S A := fun s => (Returned (f s), s).

(** Run a computation of one component of a pair state. *)
Definition on_self {S W A} (m : M S A) : M (S * W) A :=
  fun '(s, w) => let '(r, s') := m s in (r, (s', w)).

Definition on_host {S W A} (m : M W A) : M (S * W) A :=
  fun '(s, w) => let '(r, w') := m w in (r, (s, w')).

Declare Scope py_scope.
Delimit Scope py_scope with py.
Notation "x <- c ;; k" := (bind c (fun x => k))
  (at level 100, c at next level, right associativity) : py_scope.
Notation "c ;; k" := (bind c (fun _ => k))
  (at level 100, right associativity) : py_scope.
Local Open Scope py_scope.

(** Python's [a or b], [a and b] and [if c: ... else: ...] on tests that
    read the state: the right operand runs only when the left one does not
    decide. *)
Definition py_or {S} (a b : M S bool) : M S bool :=
  x <- a;; if x then ret true else b.

Definition py_and {S} (a b : M S bool) : M S bool :=
  x <- a;; if x then b else ret false.

Definition py_if {S A} (c : M S bool) (t e : M S A) : M S A :=
  x <- c;; if x then t else e.

(** ** The feed entry and the feed manager of the external library

    [aio_geojson_vicemergency_incidents] is not part of the repository.  A
    feed entry is the record of the attributes the platform reads from it,
    each holding any value; the feed manager is its mapping [feed_entries]
    from external identifier (a [str]) to entry. *)

Module FeedEntry.
Record t : Type := Build {
  category1 : pyval;
  category2 : pyval;
  location : pyval;
  distance_to_home : pyval;
  coordinates : pyval;
  attribution : pyval;
  publication_date : pyval;
  description : pyval;
  etsa_id : pyval;
  source_organisation : pyval;
  resources : pyval;
  size : pyval;
  size_fmt : pyval;
  status : pyval;
  type : pyval;
  statewide : pyval
}.
End FeedEntry.

Record FeedManager : Type := {
  feed_entries : gmap string FeedEntry.t
}.

(** [d.get(k)] on a dict whose keys are strings: [TypeError] for an
    unhashable key, [None] for a key that is not in the dict, which every
    hashable key that is not a [str] is. *)
Definition dict_get {V} (d : gmap string V) (k : pyval) : outcome (option V) :=
  if hashable k then
    match k with
    | PStr s => Returned (d !! s)
    | _ => Returned None
    end
  else Raised TypeError.

(** ** Constants of the module *)

Definition ATTR_CATEGORY1 := "category1".
Definition ATTR_CATEGORY2 := "category2".
Definition ATTR_DESCRIPTION := "description".
Definition ATTR_ID := "id".
Definition ATTR_PUBLICATION_DATE := "publication_date".
Definition ATTR_SOURCE_TITLE := "sourceTitle".
Definition ATTR_SOURCE_ORG := "sourceOrg".
Definition ATTR_ESTA_ID := "estaid".
Definition ATTR_RESOURCES := "resources".
Definition ATTRIBUTION := "VICEmergency".
Definition ATTR_SIZE := "size".
Definition ATTR_SIZE_FMT := "sizefmt".
Definition ATTR_LOCATION := "location".
Definition ATTR_TEXT := "text".
Definition ATTR_STATUS := "status".
Definition ATTR_TYPE := "type".
Definition ATTR_STATEWIDE := "statewide".

(** [homeassistant.const.ATTR_ATTRIBUTION], imported from the host. *)
Definition ATTR_ATTRIBUTION := "attribution".

Definition CONF_INC_CATEGORIES := "include_categories".
Definition CONF_EXC_CATEGORIES := "exclude_categories".
Definition CONF_STATEWIDE := "statewide".

Definition SIGNAL_DELETE_ENTITY := "vicemergency_feed_delete_{}".
Definition SIGNAL_UPDATE_ENTITY := "vicemergency_feed_update_{}".

Definition SOURCE := "vicemergency_feed".

(** [CONF_LATITUDE], [CONF_LONGITUDE], [CONF_RADIUS], [CONF_SCAN_INTERVAL],
    [EVENT_HOMEASSISTANT_START] and [EVENT_HOMEASSISTANT_STOP] of
    [homeassistant.const], imported from the host. *)
Definition CONF_LATITUDE := "latitude".
Definition CONF_LONGITUDE := "longitude".
Definition CONF_RADIUS := "radius".
Definition CONF_SCAN_INTERVAL := "scan_interval".
Definition EVENT_HOMEASSISTANT_START := "homeassistant_start".
Definition EVENT_HOMEASSISTANT_STOP := "homeassistant_stop".

(** [template.format(x)] for a template with one replacement field "{}" and
    no other brace, as the two signal templates are; [arg] is the text of
    [x], that is [str(x)]. *)
Fixpoint str_format (template arg : string) : string :=
  match template with
  | EmptyString => EmptyString
  | String c rest =>
      match rest with
      | String c' rest' =>
          if Ascii.eqb c "{" && Ascii.eqb c' "}" then arg ++ rest'
          else String c (str_format rest arg)
      | EmptyString => String c EmptyString
      end
  end.

(** [d.get(key, default)] and [d[key]] on a dict with string keys, for a
    [str] key. *)
Definition dict_get_default {V} (d : gmap string V) (key : string)
    (default : V) : V :=
  match d !! key with
  | Some v => v
  | None => default
  end.

Definition dict_getitem {V} (d : gmap string V) (key : string) : outcome V :=
  match d !! key with
  | Some v => Returned v
  | None => Raised KeyError
  end.

(** ** The host

    The callables the host hands out ([async_track_time_interval] and
    [async_dispatcher_connect] return the function that undoes the
    registration) are references [PFunc h]; calling one runs the host's
    [invoke h] on the host's state [World]. *)

Section Call.
Context {World : Type}.
Variable invoke : nat -> M World unit.

(** [f()]. *)
Definition call (f : pyval) : M World unit :=
  match f with
  | PFunc h => invoke h
  | _ => raise TypeError
  end.

End Call.

(** ** VICEmergencyFeedEntityManager *)

Module VICEmergencyFeedEntityManager.

Record t : Type := Build {
  _feed_manager : FeedManager;
  _scan_interval : pyval;
  _track_time_remove_callback : pyval
}.

(** [__init__]: [feed_manager] is the [VICEmergencyIncidentsFeedManager]
    that the constructor builds from the session, the callbacks, the
    coordinates and the filters. *)
Definition __init__ (feed_manager : FeedManager) (scan_interval : pyval) : t :=
  {| _feed_manager := feed_manager;
     _scan_interval := scan_interval;
     _track_time_remove_callback := PNone |}.

(** [get_entry(self, external_id)]. *)
Definition get_entry (self : t) (external_id : pyval)
  : outcome (option FeedEntry.t) :=
  dict_get (feed_entries (_feed_manager self)) external_id.

Section Host.
Context {World : Type}.
Variable invoke : nat -> M World unit.

(** [async_stop(self)]; the debug log is left out. *)
Definition async_stop : M (t * World) unit :=
  py_if (cb <- on_self (gets _track_time_remove_callback);; ret (truthy cb))
    (cb <- on_self (gets _track_time_remove_callback);;
     on_host (call invoke cb))
    (ret tt).

(** The host's [async_track_time_interval(hass, action, interval)], which
    registers [action] and returns the callable that removes it; the action
    here is always the closure [update] of [async_init]. *)
Variable async_track_time_interval : pyval -> M World pyval.

(** [async_init(self)]; the debug log is left out. *)
Definition async_init : M (t * World) unit :=
  interval <- on_self (gets _scan_interval);;
  cb <- on_host (async_track_time_interval interval);;
  on_self (fun self =>
             (Returned tt,
              {| _feed_manager := _feed_manager self;
                 _scan_interval := _scan_interval self;
                 _track_time_remove_callback := cb |})).

End Host.

End VICEmergencyFeedEntityManager.

(** ** VICEmergencyLocationEvent

    The entity is its instance dictionary: [self.x = v] inserts, and reading
    [self.x] raises [AttributeError] when no assignment to [x] has run. *)

Module VICEmergencyLocationEvent.

Abbreviation t := (gmap string pyval).

Definition getattr (self : t) (name : string) : outcome pyval :=
  match self !! name with
  | Some v => Returned v
  | None => Raised (AttributeError name)
  end.

(** [self.name]. *)
Definition load (name : string) : M t pyval :=
  fun self => (getattr self name, self).

(** [self.name = v]. *)
Definition store (name : string) (v : pyval) : M t unit :=
  fun self => (Returned tt, <[name := v]> self).

(** [__init__(self, feed_manager, external_id)]; [feed_manager] is the
    reference to the entity manager. *)
Definition __init__ (feed_manager external_id : pyval) : M t unit :=
  store "_feed_manager" feed_manager;;
  store "_external_id" external_id;;
  store "_name" PNone;;
  store "_distance" PNone;;
  store "_latitude" PNone;;
  store "_longitude" PNone;;
  store "_attribution" PNone;;
  store "_remove_signal_delete" PNone;;
  store "_remove_signal_update" PNone;;
  store "_category1" PNone;;
  store "_category2" PNone;;
  store "_description" PNone;;
  store "_id" PNone;;
  store "_sourceTitle" PNone;;
  store "_sourceOrg" PNone;;
  store "_resources" PNone;;
  store "_size" PNone;;
  store "_sizefmt" PNone;;
  store "_location" PNone;;
  store "_status" PNone;;
  store "_type" PNone;;
  store "_statewide" PNone;;
  store "_description" PNone.

(** [VICEmergencyLocationEvent(feed_manager, external_id)]: the instance
    after [__init__] has run on the empty instance dictionary. *)
Definition new_entity (feed_manager external_id : pyval) : t :=
  snd (__init__ feed_manager external_id ∅).

(** [_update_from_feed(self, feed_entry)]. *)
Definition _update_from_feed (feed_entry : FeedEntry.t) : M t unit :=
  v <- liftO (py_add (FeedEntry.category1 feed_entry) (PStr " - "));;
  v <- liftO (py_add v (FeedEntry.location feed_entry));;
  store "_name" v;;
  store "_distance" (FeedEntry.distance_to_home feed_entry);;
  v <- liftO (py_getitem (FeedEntry.coordinates feed_entry) 0);;
  store "_latitude" v;;
  v <- liftO (py_getitem (FeedEntry.coordinates feed_entry) 1);;
  store "_longitude" v;;
  store "_attribution" (FeedEntry.attribution feed_entry);;
  store "_publication_date" (FeedEntry.publication_date feed_entry);;
  store "_location" (FeedEntry.location feed_entry);;
  store "_category1" (FeedEntry.category1 feed_entry);;
  store "_category2" (FeedEntry.category2 feed_entry);;
  store "_description" (FeedEntry.description feed_entry);;
  store "_external_id" (FeedEntry.etsa_id feed_entry);;
  store "_sourceOrg" (FeedEntry.source_organisation feed_entry);;
  store "_resources" (FeedEntry.resources feed_entry);;
  store "_size" (FeedEntry.size feed_entry);;
  store "_sizefmt" (FeedEntry.size_fmt feed_entry);;
  store "_location" (FeedEntry.location feed_entry);;
  store "_status" (FeedEntry.status feed_entry);;
  store "_type" (FeedEntry.type feed_entry);;
  store "_statewide" (FeedEntry.statewide feed_entry);;
  store "_description" (FeedEntry.description feed_entry).

(** [async_update(self)].  [manager] is the entity manager that
    [self._feed_manager] refers to, in its state at the call.  The debug
    log reads [self._external_id] for its argument; a feed entry object is
    always true in [if feed_entry:], so the test is on [None]. *)
Definition async_update (manager : VICEmergencyFeedEntityManager.t) : M t unit :=
  _ <- load "_external_id";;
  _ <- load "_feed_manager";;
  external_id <- load "_external_id";;
  feed_entry <- liftO (VICEmergencyFeedEntityManager.get_entry manager external_id);;
  match feed_entry with
  | Some feed_entry => _update_from_feed feed_entry
  | None => ret tt
  end.

(** [self.name == lit]. *)
Definition attr_eq (name lit : string) : M t bool :=
  v <- load name;; ret (py_eq_str v lit).

(** The [icon] property. *)
Definition icon : M t string :=
  py_if (py_or (attr_eq "_status" "Safe") (attr_eq "_status" "Complete"))
    (ret "mdi:map-marker-check")
  (py_if (attr_eq "_status" "Unknown")
    (ret "mdi:map-marker-question")
  (py_if (py_and (attr_eq "_category1" "Rescue")
                 (attr_eq "_category2" "Rescue Road Trap"))
    (ret "mdi:car-emergency")
  (py_if (attr_eq "_category1" "Fire")
    (py_if (attr_eq "_status" "Under Control")
       (ret "mdi:fire")
       (ret "mdi:fire-alert"))
  (py_if (attr_eq "_category1" "Tree Down")
    (ret "mdi:tree")
  (py_if (attr_eq "_category1" "Flooding")
    (ret "mdi:house-flood")
  (py_if (attr_eq "_status" "Warning")
    (ret "mdi:alert")
    (ret "mdi:alarm-light"))))))).

(** The [name], [distance], [latitude] and [longitude] properties. *)
Definition name : M t pyval := load "_name".
Definition distance : M t pyval := load "_distance".
Definition latitude : M t pyval := load "_latitude".
Definition longitude : M t pyval := load "_longitude".

(** The body of the loop of [device_state_attributes]:
    [if value or isinstance(value, bool): attributes[key] = value]. *)
Definition add_attribute (attributes : gmap string pyval)
    (kv : string * pyval) : gmap string pyval :=
  let '(key, value) := kv in
  if truthy value || isinstance_bool value then <[key := value]> attributes
  else attributes.

(** The [device_state_attributes] property: the tuple of pairs is built
    first, reading every field in order, then the loop runs over it. *)
Definition device_state_attributes : M t (gmap string pyval) :=
  v_id <- load "_id";;
  v_location <- load "_location";;
  v_attribution <- load "_attribution";;
  v_category1 <- load "_category1";;
  v_category2 <- load "_category2";;
  v_description <- load "_description";;
  v_publication_date <- load "_publication_date";;
  v_sourceTitle <- load "_sourceTitle";;
  v_sourceOrg <- load "_sourceOrg";;
  v_resources <- load "_resources";;
  v_size <- load "_size";;
  v_sizefmt <- load "_sizefmt";;
  v_location' <- load "_location";;
  v_status <- load "_status";;
  v_statewide <- load "_statewide";;
  v_type <- load "_type";;
  v_description' <- load "_description";;
  ret (foldl add_attribute ∅
         [ (ATTR_ID, v_id);
           (ATTR_LOCATION, v_location);
           (ATTR_ATTRIBUTION, v_attribution);
           (ATTR_CATEGORY1, v_category1);
           (ATTR_CATEGORY2, v_category2);
           (ATTR_DESCRIPTION, v_description);
           (ATTR_PUBLICATION_DATE, v_publication_date);
           (ATTR_SOURCE_TITLE, v_sourceTitle);
           (ATTR_SOURCE_ORG, v_sourceOrg);
           (ATTR_RESOURCES, v_resources);
           (ATTR_SIZE, v_size);
           (ATTR_SIZE_FMT, v_sizefmt);
           (ATTR_LOCATION, v_location');
           (ATTR_STATUS, v_status);
           (ATTR_STATEWIDE, v_statewide);
           (ATTR_TYPE, v_type);
           (ATTR_DESCRIPTION, v_description') ]).

(** The bound methods the entity hands to the dispatcher. *)
Inductive target : Type :=
| _delete_callback
| _update_callback.

Section Host.
Context {World : Type}.
Variable invoke : nat -> M World unit.

(** [async_will_remove_from_hass(self)]. *)
Definition async_will_remove_from_hass : M (t * World) unit :=
  f <- on_self (load "_remove_signal_delete");;
  on_host (call invoke f);;
  f <- on_self (load "_remove_signal_update");;
  on_host (call invoke f).

(** Python's [str(x)]. *)
Variable py_str : pyval -> string.

(** The host's [async_dispatcher_connect(hass, signal, target)], which
    returns the callable that disconnects [target] from [signal]. *)
Variable async_dispatcher_connect : string -> target -> M World pyval.

(** [async_added_to_hass(self)]. *)
Definition async_added_to_hass : M (t * World) unit :=
  external_id <- on_self (load "_external_id");;
  f <- on_host (async_dispatcher_connect
                  (str_format SIGNAL_DELETE_ENTITY (py_str external_id))
                  _delete_callback);;
  on_self (store "_remove_signal_delete" f);;
  external_id <- on_self (load "_external_id");;
  f <- on_host (async_dispatcher_connect
                  (str_format SIGNAL_UPDATE_ENTITY (py_str external_id))
                  _update_callback);;
  on_self (store "_remove_signal_update" f).

(** The [should_poll], [source] and [unit_of_measurement] properties
    ([LENGTH_KILOMETERS] is the host's "km"). *)
Definition should_poll : M t bool := ret false.
Definition source : M t string := ret SOURCE.
Definition unit_of_measurement : M t string := ret "km".

End Host.

End VICEmergencyLocationEvent.

Import VICEmergencyLocationEvent.

(** ** The callbacks of the manager and the set-up of the platform

    [_generate_entity], [_update_entity] and [_remove_entity] are the
    methods of [VICEmergencyFeedEntityManager] that the feed manager calls;
    they come after the entity, which the first one constructs. *)

(** The closures [async_setup_platform] registers with the host's bus, each
    holding the manager it starts or stops. *)
Inductive listener : Type :=
| start_feed_manager (manager : VICEmergencyFeedEntityManager.t)
| stop_feed_manager (manager : VICEmergencyFeedEntityManager.t).

Section Platform.
Context {World : Type}.

(** Python's [str(x)]. *)
Variable py_str : pyval -> string.

(** The host's [async_dispatcher_send(hass, signal)] and the
    [async_add_entities(entities, update_before_add)] it passes to the
    platform. *)
Variable async_dispatcher_send : string -> M World unit.
Variable async_add_entities : list VICEmergencyLocationEvent.t -> bool -> M World unit.

(** [_generate_entity(self, external_id)]; [self_ref] is the reference to
    the manager. *)
Definition _generate_entity (self_ref external_id : pyval) : M World unit :=
  let new_entity := new_entity self_ref external_id in
  async_add_entities [new_entity] true.

(** [_update_entity(self, external_id)]. *)
Definition _update_entity (external_id : pyval) : M World unit :=
  async_dispatcher_send (str_format SIGNAL_UPDATE_ENTITY (py_str external_id)).

(** [_remove_entity(self, external_id)]. *)
Definition _remove_entity (external_id : pyval) : M World unit :=
  async_dispatcher_send (str_format SIGNAL_DELETE_ENTITY (py_str external_id)).

(** The host's [aiohttp_client.async_get_clientsession(hass)],
    [hass.bus.async_listen_once(event, listener)] and
    [hass.async_create_task(manager.async_update())]; the constructor of
    the external feed manager, from the session, the coordinates, the
    radius and the two category filters; [hass.config.latitude] and
    [hass.config.longitude]; and the module's constant
    [SCAN_INTERVAL = timedelta(minutes=5)]. *)
Variable async_get_clientsession : M World pyval.
Variable async_listen_once : string -> listener -> M World unit.
Variable async_create_task : VICEmergencyFeedEntityManager.t -> M World unit.
Variable VICEmergencyIncidentsFeedManager :
  pyval -> pyval -> pyval -> pyval -> pyval -> FeedManager.
Variables hass_latitude hass_longitude : pyval.
Variable SCAN_INTERVAL : pyval.

(** [async_setup_platform(hass, config, async_add_entities)]. *)
Definition async_setup_platform (config : gmap string pyval) : M World unit :=
  let scan_interval := dict_get_default config CONF_SCAN_INTERVAL SCAN_INTERVAL in
  let coordinates :=
    PTuple [ dict_get_default config CONF_LATITUDE hass_latitude;
             dict_get_default config CONF_LONGITUDE hass_longitude ] in
  radius_in_km <- liftO (dict_getitem config CONF_RADIUS);;
  let inc_categories := dict_get_default config CONF_INC_CATEGORIES PNone in
  let exc_categories := dict_get_default config CONF_EXC_CATEGORIES PNone in
  websession <- async_get_clientsession;;
  let manager :=
    VICEmergencyFeedEntityManager.__init__
      (VICEmergencyIncidentsFeedManager websession coordinates radius_in_km
         inc_categories exc_categories)
      scan_interval in
  async_listen_once EVENT_HOMEASSISTANT_START (start_feed_manager manager);;
  async_listen_once EVENT_HOMEASSISTANT_STOP (stop_feed_manager manager);;
  async_create_task manager.

End Platform.

(** ** The icon rule as the specification words it

    Eight rules in priority order over (status, category1, category2); the
    icon is the one of the first rule that matches, the last rule being the
    default. *)

Definition ICON_RESOLVED := "mdi:map-marker-check".
Definition ICON_QUESTION := "mdi:map-marker-question".
Definition ICON_VEHICLE_EMERGENCY := "mdi:car-emergency".
Definition ICON_UNDER_CONTROL := "mdi:fire".
Definition ICON_FIRE_ALERT := "mdi:fire-alert".
Definition ICON_TREE := "mdi:tree".
Definition ICON_FLOOD := "mdi:house-flood".
Definition ICON_ALERT := "mdi:alert".
Definition ICON_ALARM := "mdi:alarm-light".

Record icon_rule : Type := {
  matches : pyval -> pyval -> pyval -> bool;
  chosen : pyval -> string
}.

Definition icon_rules : list icon_rule :=
  [ {| matches := fun status _ _ =>
         py_eq_str status "Safe" || py_eq_str status "Complete";
       chosen := fun _ => ICON_RESOLVED |};
    {| matches := fun status _ _ => py_eq_str status "Unknown";
       chosen := fun _ => ICON_QUESTION |};
    {| matches := fun _ category1 category2 =>
         py_eq_str category1 "Rescue"
         && py_eq_str category2 "Rescue Road Trap";
       chosen := fun _ => ICON_VEHICLE_EMERGENCY |};
    {| matches := fun _ category1 _ => py_eq_str category1 "Fire";
       chosen := fun status =>
         if py_eq_str status "Under Control" then ICON_UNDER_CONTROL
         else ICON_FIRE_ALERT |};
    {| matches := fun _ category1 _ => py_eq_str category1 "Tree Down";
       chosen := fun _ => ICON_TREE |};
    {| matches := fun _ category1 _ => py_eq_str category1 "Flooding";
       chosen := fun _ => ICON_FLOOD |};
    {| matches := fun status _ _ => py_eq_str status "Warning";
       chosen := fun _ => ICON_ALERT |};
    {| matches := fun _ _ _ => true;
       chosen := fun _ => ICON_ALARM |} ].

Fixpoint first_match (rules : list icon_rule)
    (status category1 category2 : pyval) : option string :=
  match rules with
  | [] => None
  | r :: rules =>
      if matches r status category1 category2 then Some (chosen r status)
      else first_match rules status category1 category2
  end.

(** ** The fields of the render pass and of the attribute mapping *)

(** The fields [_update_from_feed] assigns. *)
Definition assigned_by_update : list string :=
  [ "_name"; "_distance"; "_latitude"; "_longitude"; "_attribution";
    "_publication_date"; "_location"; "_category1"; "_category2";
    "_description"; "_external_id"; "_sourceOrg"; "_resources"; "_size";
    "_sizefmt"; "_status"; "_type"; "_statewide" ].

(** The attribute names of [device_state_attributes] and the field each one
    shows, in the order of the source. *)
Definition attribute_fields : list (string * string) :=
  [ (ATTR_ID, "_id");
    (ATTR_LOCATION, "_location");
    (ATTR_ATTRIBUTION, "_attribution");
    (ATTR_CATEGORY1, "_category1");
    (ATTR_CATEGORY2, "_category2");
    (ATTR_DESCRIPTION, "_description");
    (ATTR_PUBLICATION_DATE, "_publication_date");
    (ATTR_SOURCE_TITLE, "_sourceTitle");
    (ATTR_SOURCE_ORG, "_sourceOrg");
    (ATTR_RESOURCES, "_resources");
    (ATTR_SIZE, "_size");
    (ATTR_SIZE_FMT, "_sizefmt");
    (ATTR_LOCATION, "_location");
    (ATTR_STATUS, "_status");
    (ATTR_STATEWIDE, "_statewide");
    (ATTR_TYPE, "_type");
    (ATTR_DESCRIPTION, "_description") ].

(** The pair the loop keeps for [key]: the last one with that name whose
    value passes the test. *)
Definition keeps (key : string) (kv : string * pyval) : bool :=
  String.eqb (fst kv) key && (truthy (snd kv) || isinstance_bool (snd kv)).

(** Every field of the entry that the attribute mapping shows is truthy. *)
Definition all_fields_non_empty (feed_entry : FeedEntry.t) : Prop :=
  truthy (FeedEntry.location feed_entry) = true
  /\ truthy (FeedEntry.attribution feed_entry) = true
  /\ truthy (FeedEntry.category1 feed_entry) = true
  /\ truthy (FeedEntry.category2 feed_entry) = true
  /\ truthy (FeedEntry.description feed_entry) = true
  /\ truthy (FeedEntry.publication_date feed_entry) = true
  /\ truthy (FeedEntry.source_organisation feed_entry) = true
  /\ truthy (FeedEntry.resources feed_entry) = true
  /\ truthy (FeedEntry.size feed_entry) = true
  /\ truthy (FeedEntry.size_fmt feed_entry) = true
  /\ truthy (FeedEntry.status feed_entry) = true
  /\ truthy (FeedEntry.statewide feed_entry) = true
  /\ truthy (FeedEntry.type feed_entry) = true.

(** The attribute names whose field [_update_from_feed] assigns. *)
Definition copied_attributes : list string :=
  [ ATTR_LOCATION; ATTR_ATTRIBUTION; ATTR_CATEGORY1; ATTR_CATEGORY2;
    ATTR_DESCRIPTION; ATTR_PUBLICATION_DATE; ATTR_SOURCE_ORG;
    ATTR_RESOURCES; ATTR_SIZE; ATTR_SIZE_FMT; ATTR_STATUS; ATTR_STATEWIDE;
    ATTR_TYPE ].

(** ** The release of the subscriptions *)

(** The release as the specification words it: whatever the release of the
    delete subscription does, the host ends in the state that the release
    of the update subscription leaves after it. *)
Definition releases_both_unconditionally : Prop :=
  forall (World : Type) (invoke : nat -> M World unit) (self : t)
         (h_delete h_update : nat) (w : World),
    self !! "_remove_signal_delete" = Some (PFunc h_delete) ->
    self !! "_remove_signal_update" = Some (PFunc h_update) ->
    snd (async_will_remove_from_hass invoke (self, w))
    = (self, snd (invoke h_update (snd (invoke h_delete w)))).

(** A host whose state is the list of the live subscriptions: releasing
    subscription 1 fails, releasing any other one removes it. *)
Definition failing_host (h : nat) : M (list nat) unit :=
  fun live =>
    if Nat.eqb h 1 then (Raised (HostError 1), live)
    else (Returned tt, filter (fun h' => negb (Nat.eqb h' h)) live).

(** An entity after [async_added_to_hass], holding the two callables the
    host returned for its subscriptions. *)
Definition subscribed (h_delete h_update : nat) (self : t) : t :=
  <["_remove_signal_update" := PFunc h_update]>
    (<["_remove_signal_delete" := PFunc h_delete]> self).

(** ** Sample data *)

Definition sample_entry : FeedEntry.t :=
  {| FeedEntry.category1 := PStr "Fire";
     FeedEntry.category2 := PStr "Bushfire";
     FeedEntry.location := PStr "Ballarat";
     FeedEntry.distance_to_home := PFloat (S754_finite false 5 0);
     FeedEntry.coordinates :=
       PTuple [PFloat (S754_finite true 75 (-1));
               PFloat (S754_finite false 287 (-1))];
     FeedEntry.attribution := PStr "VICEmergency";
     FeedEntry.publication_date := PDatetime 1600000000;
     FeedEntry.description := PStr "Grass fire";
     FeedEntry.etsa_id := PStr "E-777";
     FeedEntry.source_organisation := PStr "CFA";
     FeedEntry.resources := PList [PStr "Tanker"];
     FeedEntry.size := PStr "Small";
     FeedEntry.size_fmt := PStr "0.5 ha";
     FeedEntry.status := PStr "Safe";
     FeedEntry.type := PStr "incident";
     FeedEntry.statewide := PBool true |}.

(** An entry with an empty status and the statewide flag [False]. *)
Definition quiet_entry : FeedEntry.t :=
  {| FeedEntry.category1 := PStr "Rescue";
     FeedEntry.category2 := PStr "Rescue Road Trap";
     FeedEntry.location := PStr "Geelong";
     FeedEntry.distance_to_home := PFloat (S754_finite false 3 1);
     FeedEntry.coordinates :=
       PTuple [PFloat (S754_finite true 76 (-1));
               PFloat (S754_finite false 289 (-1))];
     FeedEntry.attribution := PStr "VICEmergency";
     FeedEntry.publication_date := PDatetime 1600000300;
     FeedEntry.description := PNone;
     FeedEntry.etsa_id := PInt 2203;
     FeedEntry.source_organisation := PStr "SES";
     FeedEntry.resources := PList [];
     FeedEntry.size := PInt 0;
     FeedEntry.size_fmt := PStr "";
     FeedEntry.status := PStr "";
     FeedEntry.type := PStr "incident";
     FeedEntry.statewide := PBool false |}.

Definition sample_manager : VICEmergencyFeedEntityManager.t :=
  VICEmergencyFeedEntityManager.__init__
    {| feed_entries := {[ "12345" := sample_entry; "12346" := quiet_entry ]} |}
    (PInt 300).

(** The entity of "12345" before and after its first render pass. *)
Definition sample_entity : t := new_entity (PObject 0) (PStr "12345").

Definition sample_rendered : t :=
  snd (async_update sample_manager sample_entity).

(** The entity of "12346" after its first render pass. *)
Definition quiet_rendered : t :=
  snd (async_update sample_manager (new_entity (PObject 0) (PStr "12346"))).

(** [sample_entry] without a location name. *)
Definition unnamed_entry : FeedEntry.t :=
  {| FeedEntry.category1 := FeedEntry.category1 sample_entry;
     FeedEntry.category2 := FeedEntry.category2 sample_entry;
     FeedEntry.location := PNone;
     FeedEntry.distance_to_home := FeedEntry.distance_to_home sample_entry;
     FeedEntry.coordinates := FeedEntry.coordinates sample_entry;
     FeedEntry.attribution := FeedEntry.attribution sample_entry;
     FeedEntry.publication_date := FeedEntry.publication_date sample_entry;
     FeedEntry.description := FeedEntry.description sample_entry;
     FeedEntry.etsa_id := FeedEntry.etsa_id sample_entry;
     FeedEntry.source_organisation :=
       FeedEntry.source_organisation sample_entry;
     FeedEntry.resources := FeedEntry.resources sample_entry;
     FeedEntry.size := FeedEntry.size sample_entry;
     FeedEntry.size_fmt := FeedEntry.size_fmt sample_entry;
     FeedEntry.status := FeedEntry.status sample_entry;
     FeedEntry.type := FeedEntry.type sample_entry;
     FeedEntry.statewide := FeedEntry.statewide sample_entry |}.

(** [quiet_entry] with other coordinates. *)
Definition with_coordinates (coordinates : pyval) : FeedEntry.t :=
  {| FeedEntry.category1 := FeedEntry.category1 quiet_entry;
     FeedEntry.category2 := FeedEntry.category2 quiet_entry;
     FeedEntry.location := FeedEntry.location quiet_entry;
     FeedEntry.distance_to_home := FeedEntry.distance_to_home quiet_entry;
     FeedEntry.coordinates := coordinates;
     FeedEntry.attribution := FeedEntry.attribution quiet_entry;
     FeedEntry.publication_date := FeedEntry.publication_date quiet_entry;
     FeedEntry.description := FeedEntry.description quiet_entry;
     FeedEntry.etsa_id := FeedEntry.etsa_id quiet_entry;
     FeedEntry.source_organisation :=
       FeedEntry.source_organisation quiet_entry;
     FeedEntry.resources := FeedEntry.resources quiet_entry;
     FeedEntry.size := FeedEntry.size quiet_entry;
     FeedEntry.size_fmt := FeedEntry.size_fmt quiet_entry;
     FeedEntry.status := FeedEntry.status quiet_entry;
     FeedEntry.type := FeedEntry.type quiet_entry;
     FeedEntry.statewide := FeedEntry.statewide quiet_entry |}.

(** A manager whose feed has no entry. *)
Definition empty_manager : VICEmergencyFeedEntityManager.t :=
  VICEmergencyFeedEntityManager.__init__ {| feed_entries := ∅ |} (PInt 300).

(** A host for the samples, whose state is the list of the live
    registrations: the timer is registration 7, the delete subscription 3
    and the update subscription 2; [failing_host] releases them. *)
Definition sample_timer (interval : pyval) : M (list nat) pyval :=
  fun live => (Returned (PFunc 7), (live ++ [7])%list).

Definition sample_connect (signal : string) (callback : target)
  : M (list nat) pyval :=
  fun live =>
    let h := match callback with
             | _delete_callback => 3
             | _update_callback => 2
             end in
    (Returned (PFunc h), (live ++ [h])%list).

(** [str(x)] on the identifiers of the samples, which are strings. *)
Definition sample_str (x : pyval) : string :=
  match x with
  | PStr s => s
  | _ => "None"
  end.

(** A host for [async_setup_platform] that logs the events it is asked to
    listen to, and a validated configuration without coordinates. *)
Definition sample_listen (event : string) (l : listener)
  : M (list string) unit :=
  fun log => (Returned tt, (log ++ [event])%list).

Definition sample_config : gmap string pyval :=
  {[ CONF_RADIUS := PFloat (S754_finite false 5 2);
     CONF_INC_CATEGORIES := PList [];
     CONF_EXC_CATEGORIES := PList [PStr "Burn Area"];
     CONF_STATEWIDE := PBool false ]}.

(** The attribute names whose field a copy assigns, each with the value
    of the entry that the field then holds. *)
Definition shown_values (feed_entry : FeedEntry.t) : list (string * pyval) :=
  [ (ATTR_LOCATION, FeedEntry.location feed_entry);
    (ATTR_ATTRIBUTION, FeedEntry.attribution feed_entry);
    (ATTR_CATEGORY1, FeedEntry.category1 feed_entry);
    (ATTR_CATEGORY2, FeedEntry.category2 feed_entry);
    (ATTR_DESCRIPTION, FeedEntry.description feed_entry);
    (ATTR_PUBLICATION_DATE, FeedEntry.publication_date feed_entry);
    (ATTR_SOURCE_ORG, FeedEntry.source_organisation feed_entry);
    (ATTR_RESOURCES, FeedEntry.resources feed_entry);
    (ATTR_SIZE, FeedEntry.size feed_entry);
    (ATTR_SIZE_FMT, FeedEntry.size_fmt feed_entry);
    (ATTR_STATUS, FeedEntry.status feed_entry);
    (ATTR_STATEWIDE, FeedEntry.statewide feed_entry);
    (ATTR_TYPE, FeedEntry.type feed_entry) ].

(** ** The assignments of a render pass *)

(** A sequence of assignments [self.k = v], run in order. *)
Definition stores (assignments : list (string * pyval)) (self : t) : t :=
  foldl (fun self kv => <[fst kv := snd kv]> self) self assignments.

(** The assignments [_update_from_feed] makes after the coordinates. *)
Definition copied_after_coordinates (feed_entry : FeedEntry.t)
  : list (string * pyval) :=
  [ ("_attribution", FeedEntry.attribution feed_entry);
    ("_publication_date", FeedEntry.publication_date feed_entry);
    ("_location", FeedEntry.location feed_entry);
    ("_category1", FeedEntry.category1 feed_entry);
    ("_category2", FeedEntry.category2 feed_entry);
    ("_description", FeedEntry.description feed_entry);
    ("_external_id", FeedEntry.etsa_id feed_entry);
    ("_sourceOrg", FeedEntry.source_organisation feed_entry);
    ("_resources", FeedEntry.resources feed_entry);
    ("_size", FeedEntry.size feed_entry);
    ("_sizefmt", FeedEntry.size_fmt feed_entry);
    ("_location", FeedEntry.location feed_entry);
    ("_status", FeedEntry.status feed_entry);
    ("_type", FeedEntry.type feed_entry);
    ("_statewide", FeedEntry.statewide feed_entry);
    ("_description", FeedEntry.description feed_entry) ].

(** The assignments [_update_from_feed] makes before it returns or raises,
    and how it ends. *)
Definition performed (feed_entry : FeedEntry.t)
  : outcome unit * list (string * pyval) :=
  match py_add (FeedEntry.category1 feed_entry) (PStr " - ") with
  | Raised e => (Raised e, [])
  | Returned v =>
      match py_add v (FeedEntry.location feed_entry) with
      | Raised e => (Raised e, [])
      | Returned v_name =>
          let first :=
            [ ("_name", v_name);
              ("_distance", FeedEntry.distance_to_home feed_entry) ] in
          match py_getitem (FeedEntry.coordinates feed_entry) 0 with
          | Raised e => (Raised e, first)
          | Returned lat =>
              match py_getitem (FeedEntry.coordinates feed_entry) 1 with
              | Raised e => (Raised e, (first ++ [("_latitude", lat)])%list)
              | Returned lon =>
                  (Returned tt,
                   (first ++ [("_latitude", lat); ("_longitude", lon)]
                    ++ copied_after_coordinates feed_entry)%list)
              end
          end
      end
  end.

(** The fields [__init__] assigns. *)
Definition init_fields : list string :=
  [ "_feed_manager"; "_external_id"; "_name"; "_distance"; "_latitude";
    "_longitude"; "_attribution"; "_remove_signal_delete";
    "_remove_signal_update"; "_category1"; "_category2"; "_description";
    "_id"; "_sourceTitle"; "_sourceOrg"; "_resources"; "_size"; "_sizefmt";
    "_location"; "_status"; "_type"; "_statewide" ].

(** An entity on which the constructor has run: it holds every field of
    [init_fields]. *)
Definition constructed (self : t) : Prop :=
  forall name, In name init_fields -> is_Some (self !! name).

(** The entity after a sequence of render passes, each against the state
    the manager has at that pass; a pass that raises keeps what it
    assigned. *)
Definition rendered (managers : list VICEmergencyFeedEntityManager.t)
    (self : t) : t :=
  foldl (fun self manager => snd (async_update manager self)) self managers.

(** The nine icon names. *)
Definition icons : list string :=
  [ ICON_RESOLVED; ICON_QUESTION; ICON_VEHICLE_EMERGENCY; ICON_UNDER_CONTROL;
    ICON_FIRE_ALERT; ICON_TREE; ICON_FLOOD; ICON_ALERT; ICON_ALARM ].

Arguments truthy : simpl never.
Arguments isinstance_bool : simpl never.

(** ** Running the monad *)

Lemma bind_returned {S A B} (m : M S A) (k : A -> M S B) s a s' :
  m s = (Returned a, s') -> bind m k s = k a s'.
Proof. intros H. unfold bind. now rewrite H. Qed.

Lemma bind_raised {S A B} (m : M S A) (k : A -> M S B) s e s' :
  m s = (Raised e, s') -> bind m k s = (Raised e, s').
Proof. intros H. unfold bind. now rewrite H. Qed.

Lemma load_present (self : t) name v :
  self !! name = Some v -> load name self = (Returned v, self).
Proof. intros H. unfold load, getattr. now rewrite H. Qed.

Lemma load_missing (self : t) name :
  self !! name = None -> load name self = (Raised (AttributeError name), self).
Proof. intros H. unfold load, getattr. now rewrite H. Qed.

Lemma load_state (self : t) name : snd (load name self) = self.
Proof. reflexivity. Qed.

Lemma attr_eq_present (self : t) name lit v :
  self !! name = Some v ->
  attr_eq name lit self = (Returned (py_eq_str v lit), self).
Proof.
  intros H. unfold attr_eq.
  rewrite (bind_returned _ _ _ _ _ (load_present _ _ _ H)). reflexivity.
Qed.

(** ** The icon *)

Ltac icon_steps Hs Hc1 Hc2 :=
  repeat first
    [ rewrite (attr_eq_present _ _ _ _ Hs)
    | rewrite (attr_eq_present _ _ _ _ Hc1)
    | rewrite (attr_eq_present _ _ _ _ Hc2)
    | progress cbv beta iota
    | match goal with
      | |- context [py_eq_str ?a ?b] => destruct (py_eq_str a b)
      end ].

(** What [icon] computes on an entity that holds the three fields: the
    nested tests of the source, on the values of the fields. *)
Lemma icon_unfold (self : t) (status category1 category2 : pyval) :
  self !! "_status" = Some status ->
  self !! "_category1" = Some category1 ->
  self !! "_category2" = Some category2 ->
  icon self =
    (Returned
       (if py_eq_str status "Safe" || py_eq_str status "Complete"
        then "mdi:map-marker-check"
        else if py_eq_str status "Unknown" then "mdi:map-marker-question"
        else if py_eq_str category1 "Rescue"
                && py_eq_str category2 "Rescue Road Trap"
        then "mdi:car-emergency"
        else if py_eq_str category1 "Fire"
        then (if py_eq_str status "Under Control" then "mdi:fire"
              else "mdi:fire-alert")
        else if py_eq_str category1 "Tree Down" then "mdi:tree"
        else if py_eq_str category1 "Flooding" then "mdi:house-flood"
        else if py_eq_str status "Warning" then "mdi:alert"
        else "mdi:alarm-light"), self).
Proof.
  intros Hs Hc1 Hc2.
  unfold icon, py_if, py_or, py_and, bind, ret.
  icon_steps Hs Hc1 Hc2; reflexivity.
Qed.

(** C1. For every status, category1 and category2 the entity holds, the
    [icon] property returns the icon of the first rule that matches in the
    eight-rule priority order, and leaves the entity as it is; with status
    "Safe" and category1 "Fire" that is the resolved icon. *)
Theorem icon_first_matching_rule :
  forall (self : t) (status category1 category2 : pyval),
    self !! "_status" = Some status ->
    self !! "_category1" = Some category1 ->
    self !! "_category2" = Some category2 ->
    (exists i,
        first_match icon_rules status category1 category2 = Some i
        /\ icon self = (Returned i, self))
    /\ (status = PStr "Safe" -> category1 = PStr "Fire" ->
        icon self = (Returned ICON_RESOLVED, self)).
Proof.
  intros self status category1 category2 Hs Hc1 Hc2.
  rewrite (icon_unfold _ _ _ _ Hs Hc1 Hc2). split.
  - eexists. split; [|reflexivity].
    cbn [first_match icon_rules matches chosen].
    repeat match goal with
           | |- context [py_eq_str ?a ?b] => destruct (py_eq_str a b)
           end; reflexivity.
  - intros -> ->. reflexivity.
Qed.

Lemma icon_first_matching_rule_witness :
  sample_rendered !! "_status" = Some (PStr "Safe")
  /\ sample_rendered !! "_category1" = Some (PStr "Fire")
  /\ sample_rendered !! "_category2" = Some (PStr "Bushfire")
  /\ icon sample_rendered = (Returned ICON_RESOLVED, sample_rendered).
Proof.
  split; [reflexivity|]. split; [reflexivity|]. split; [reflexivity|].
  apply (proj2 (icon_first_matching_rule sample_rendered (PStr "Safe")
                  (PStr "Fire") (PStr "Bushfire") eq_refl eq_refl eq_refl));
    reflexivity.
Defined.

(** ** The render pass *)

Lemma string_append_assoc (a b c : string) :
  ((a ++ b) ++ c = a ++ (b ++ c))%string.
Proof.
  induction a as [|x a IH]; [reflexivity|].
  change (String x ((a ++ b) ++ c) = String x (a ++ (b ++ c)))%string.
  now rewrite IH.
Qed.

Ltac lookup_steps :=
  repeat first
    [ rewrite lookup_insert_eq
    | rewrite lookup_insert_ne by discriminate ].

(** When [_update_from_feed] returns, category1 and location are strings,
    the coordinates have their two components, every assigned field holds
    the value copied from the entry, and no other field has changed. *)
Lemma update_from_feed_returned (feed_entry : FeedEntry.t) (self self' : t) :
  _update_from_feed feed_entry self = (Returned tt, self') ->
  exists c l lat lon,
    FeedEntry.category1 feed_entry = PStr c
    /\ FeedEntry.location feed_entry = PStr l
    /\ py_getitem (FeedEntry.coordinates feed_entry) 0 = Returned lat
    /\ py_getitem (FeedEntry.coordinates feed_entry) 1 = Returned lon
    /\ self' !! "_name" = Some (PStr (c ++ " - " ++ l))
    /\ self' !! "_distance" = Some (FeedEntry.distance_to_home feed_entry)
    /\ self' !! "_latitude" = Some lat
    /\ self' !! "_longitude" = Some lon
    /\ self' !! "_attribution" = Some (FeedEntry.attribution feed_entry)
    /\ self' !! "_publication_date"
       = Some (FeedEntry.publication_date feed_entry)
    /\ self' !! "_location" = Some (FeedEntry.location feed_entry)
    /\ self' !! "_category1" = Some (FeedEntry.category1 feed_entry)
    /\ self' !! "_category2" = Some (FeedEntry.category2 feed_entry)
    /\ self' !! "_description" = Some (FeedEntry.description feed_entry)
    /\ self' !! "_external_id" = Some (FeedEntry.etsa_id feed_entry)
    /\ self' !! "_sourceOrg"
       = Some (FeedEntry.source_organisation feed_entry)
    /\ self' !! "_resources" = Some (FeedEntry.resources feed_entry)
    /\ self' !! "_size" = Some (FeedEntry.size feed_entry)
    /\ self' !! "_sizefmt" = Some (FeedEntry.size_fmt feed_entry)
    /\ self' !! "_status" = Some (FeedEntry.status feed_entry)
    /\ self' !! "_type" = Some (FeedEntry.type feed_entry)
    /\ self' !! "_statewide" = Some (FeedEntry.statewide feed_entry)
    /\ (forall name, ~ In name assigned_by_update ->
                     self' !! name = self !! name).
Proof.
  unfold _update_from_feed, bind, liftO, store. intros H.
  destruct (FeedEntry.category1 feed_entry) as [| | | |c| | | | | |] eqn:Hc;
    try discriminate H.
  cbv beta iota delta [py_add] in H.
  destruct (FeedEntry.location feed_entry) as [| | | |l| | | | | |] eqn:Hl;
    try discriminate H.
  destruct (py_getitem (FeedEntry.coordinates feed_entry) 0)
    as [lat|] eqn:Hlat; try discriminate H.
  destruct (py_getitem (FeedEntry.coordinates feed_entry) 1)
    as [lon|] eqn:Hlon; try discriminate H.
  injection H as <-.
  exists c, l, lat, lon.
  rewrite <- string_append_assoc.
  repeat (split; [first [reflexivity | lookup_steps; reflexivity]|]).
  intros name Hname. unfold assigned_by_update in Hname. cbn [In] in Hname.
  repeat (rewrite lookup_insert_ne
            by (intros Heq; apply Hname; rewrite Heq; tauto)).
  reflexivity.
Qed.

(** [_update_from_feed] returns as soon as category1 and location are
    strings and the coordinates have two components. *)
Lemma update_from_feed_returns (feed_entry : FeedEntry.t) (self : t) c l lat lon :
  FeedEntry.category1 feed_entry = PStr c ->
  FeedEntry.location feed_entry = PStr l ->
  py_getitem (FeedEntry.coordinates feed_entry) 0 = Returned lat ->
  py_getitem (FeedEntry.coordinates feed_entry) 1 = Returned lon ->
  fst (_update_from_feed feed_entry self) = Returned tt.
Proof.
  intros Hc Hl Hlat Hlon.
  unfold _update_from_feed, bind, liftO, store.
  rewrite Hc, Hl, Hlat, Hlon. reflexivity.
Qed.

(** The first statement of [_update_from_feed] assigns the name, whatever
    the later statements do. *)
Lemma update_from_feed_name (feed_entry : FeedEntry.t) (self : t) c l :
  FeedEntry.category1 feed_entry = PStr c ->
  FeedEntry.location feed_entry = PStr l ->
  snd (_update_from_feed feed_entry self) !! "_name"
  = Some (PStr (c ++ " - " ++ l)).
Proof.
  intros Hc Hl.
  unfold _update_from_feed, bind, liftO, store.
  rewrite Hc, Hl. cbv beta iota delta [py_add].
  rewrite <- string_append_assoc.
  destruct (py_getitem (FeedEntry.coordinates feed_entry) 0);
    [|cbn [snd]; lookup_steps; reflexivity].
  destruct (py_getitem (FeedEntry.coordinates feed_entry) 1);
    cbn [snd]; lookup_steps; reflexivity.
Qed.

(** A render pass that finds no entry changes nothing, and returns when the
    back-reference to the manager is set. *)
Lemma async_update_absent (manager : VICEmergencyFeedEntityManager.t)
    (self : t) (external_id : pyval) :
  self !! "_external_id" = Some external_id ->
  VICEmergencyFeedEntityManager.get_entry manager external_id
  = Returned None ->
  snd (async_update manager self) = self
  /\ (forall r, self !! "_feed_manager" = Some r ->
                async_update manager self = (Returned tt, self)).
Proof.
  intros Hid Hget. unfold async_update, bind, liftO, ret.
  rewrite (load_present _ _ _ Hid).
  destruct (self !! "_feed_manager") as [r|] eqn:Hr.
  - rewrite (load_present _ _ _ Hr), (load_present _ _ _ Hid), Hget.
    split; [reflexivity|]. intros; reflexivity.
  - rewrite (load_missing _ _ Hr).
    split; [reflexivity|]. intros r Hr'. discriminate Hr'.
Qed.

(** A render pass that finds an entry copies it. *)
Lemma async_update_present (manager : VICEmergencyFeedEntityManager.t)
    (self : t) (external_id r : pyval) (feed_entry : FeedEntry.t) :
  self !! "_external_id" = Some external_id ->
  self !! "_feed_manager" = Some r ->
  VICEmergencyFeedEntityManager.get_entry manager external_id
  = Returned (Some feed_entry) ->
  async_update manager self = _update_from_feed feed_entry self.
Proof.
  intros Hid Hr Hget. unfold async_update, bind, liftO.
  rewrite (load_present _ _ _ Hid), (load_present _ _ _ Hr).
  rewrite (load_present _ _ _ Hid), Hget. reflexivity.
Qed.

(** The instance the constructor leaves. *)
Lemma new_entity_external_id feed_manager external_id :
  new_entity feed_manager external_id !! "_external_id" = Some external_id.
Proof.
  unfold new_entity, __init__, bind, store. cbn [snd].
  lookup_steps. reflexivity.
Qed.

Lemma new_entity_feed_manager feed_manager external_id :
  new_entity feed_manager external_id !! "_feed_manager" = Some feed_manager.
Proof.
  unfold new_entity, __init__, bind, store. cbn [snd].
  lookup_steps. reflexivity.
Qed.

Lemma new_entity_publication_date feed_manager external_id :
  new_entity feed_manager external_id !! "_publication_date" = None.
Proof.
  unfold new_entity, __init__, bind, store. cbn [snd].
  lookup_steps. apply lookup_empty.
Qed.

Lemma new_entity_id feed_manager external_id :
  new_entity feed_manager external_id !! "_id" = Some PNone.
Proof.
  unfold new_entity, __init__, bind, store. cbn [snd].
  lookup_steps. reflexivity.
Qed.

Lemma new_entity_sourceTitle feed_manager external_id :
  new_entity feed_manager external_id !! "_sourceTitle" = Some PNone.
Proof.
  unfold new_entity, __init__, bind, store. cbn [snd].
  lookup_steps. reflexivity.
Qed.

(** ** The attribute projection *)

Lemma lookup_foldl_add_attribute (pairs : list (string * pyval))
    (acc : gmap string pyval) (key : string) :
  foldl add_attribute acc pairs !! key =
  match find (keeps key) (rev pairs) with
  | Some kv => Some (snd kv)
  | None => acc !! key
  end.
Proof.
  induction pairs as [|[k v] pairs IH] using rev_ind; [reflexivity|].
  rewrite foldl_app, rev_unit. cbn [foldl find add_attribute].
  unfold keeps at 1. cbn [fst snd].
  destruct (truthy v || isinstance_bool v).
  - rewrite andb_true_r. destruct (String.eqb_spec k key) as [->|Hne].
    + apply lookup_insert_eq.
    + rewrite lookup_insert_ne by exact Hne. exact IH.
  - rewrite andb_false_r. exact IH.
Qed.

Lemma Returned_inj {A} (a b : A) : Returned a = Returned b -> a = b.
Proof. intros H. now injection H. Qed.

Ltac load_fields H :=
  repeat match type of H with
         | context [load ?n ?s] =>
             first
               [ match goal with
                 | E : s !! n = Some _ |- _ =>
                     rewrite (load_present _ _ _ E) in H
                 end
               | let v := fresh "v" in
                 let E := fresh "E" in
                 destruct (s !! n) as [v|] eqn:E;
                 [ rewrite (load_present _ _ _ E) in H
                 | rewrite (load_missing _ _ E) in H; discriminate H ] ]
         end.

(** When [device_state_attributes] returns, each listed attribute is in the
    mapping, with the value of its field, exactly when that value is truthy
    or a boolean; the entity is unchanged. *)
Lemma device_state_attributes_returned (self self' : t)
    (attributes : gmap string pyval) :
  device_state_attributes self = (Returned attributes, self') ->
  self' = self
  /\ forall key field, In (key, field) attribute_fields ->
       exists value,
         self !! field = Some value
         /\ attributes !! key
            = if truthy value || isinstance_bool value then Some value
              else None.
Proof.
  unfold device_state_attributes, bind, ret. intros H.
  load_fields H.
  apply pair_equal_spec in H as [Ha <-]. apply Returned_inj in Ha as <-.
  split; [reflexivity|].
  intros key field Hin. unfold attribute_fields in Hin. cbn [In] in Hin.
  repeat (destruct Hin as [Hin|Hin];
          [ apply pair_equal_spec in Hin as [<- <-];
            eexists; split; [eassumption|];
            rewrite lookup_foldl_add_attribute; cbn; unfold keeps; cbn;
            repeat match goal with
                   | |- context [truthy ?v || isinstance_bool ?v] =>
                       destruct (truthy v || isinstance_bool v)
                   end; reflexivity
          | ]).
  destruct Hin.
Qed.

(** [device_state_attributes] returns on an entity that holds every field
    it reads. *)
Lemma device_state_attributes_returns (self : t) :
  (forall key field, In (key, field) attribute_fields ->
                     is_Some (self !! field)) ->
  exists attributes,
    device_state_attributes self = (Returned attributes, self).
Proof.
  intros Hall.
  assert (Hf : forall field, In field (map snd attribute_fields) ->
                             exists v, self !! field = Some v).
  { intros field Hin. apply in_map_iff in Hin as [[key f] [<- Hin]].
    destruct (Hall _ _ Hin) as [v Hv]. exists v. exact Hv. }
  cbn [map attribute_fields snd] in Hf.
  unfold device_state_attributes, bind, ret.
  repeat match goal with
         | |- context [load ?n self] =>
             let v := fresh "v" in
             let E := fresh "E" in
             destruct (Hf n) as [v E]; [cbn [In]; tauto|];
             rewrite !(load_present _ _ _ E)
         end.
  eexists. reflexivity.
Qed.

(** [device_state_attributes] raises on an entity whose [_publication_date]
    was never assigned, once the six fields read before it are there. *)
Lemma device_state_attributes_raises (self : t) :
  is_Some (self !! "_id") -> is_Some (self !! "_location") ->
  is_Some (self !! "_attribution") -> is_Some (self !! "_category1") ->
  is_Some (self !! "_category2") -> is_Some (self !! "_description") ->
  self !! "_publication_date" = None ->
  device_state_attributes self
  = (Raised (AttributeError "_publication_date"), self).
Proof.
  intros [v1 H1] [v2 H2] [v3 H3] [v4 H4] [v5 H5] [v6 H6] Hp.
  unfold device_state_attributes, bind.
  rewrite (load_present _ _ _ H1), (load_present _ _ _ H2),
    (load_present _ _ _ H3), (load_present _ _ _ H4),
    (load_present _ _ _ H5), (load_present _ _ _ H6),
    (load_missing _ _ Hp).
  reflexivity.
Qed.

Lemma new_entity_raises feed_manager external_id :
  device_state_attributes (new_entity feed_manager external_id)
  = (Raised (AttributeError "_publication_date"),
     new_entity feed_manager external_id).
Proof.
  apply device_state_attributes_raises;
    [ eexists; unfold new_entity, __init__, bind, store; cbn [snd];
      lookup_steps; reflexivity .. | ].
  apply new_entity_publication_date.
Qed.

(** Only the listed attribute names are in the mapping. *)
Lemma device_state_attributes_keys (self self' : t)
    (attributes : gmap string pyval) (key : string) :
  device_state_attributes self = (Returned attributes, self') ->
  is_Some (attributes !! key) ->
  exists field, In (key, field) attribute_fields.
Proof.
  unfold device_state_attributes, bind, ret. intros H.
  load_fields H.
  apply pair_equal_spec in H as [Ha _]. apply Returned_inj in Ha as <-.
  rewrite lookup_foldl_add_attribute.
  destruct (find _ _) as [kv|] eqn:Hfind.
  - intros _. apply find_some in Hfind as [Hin Hk].
    apply andb_prop in Hk as [Hk _]. apply String.eqb_eq in Hk.
    cbn [rev app In] in Hin.
    repeat (destruct Hin as [Hin|Hin];
            [ subst kv; cbn [fst] in Hk; subst key; eexists;
              unfold attribute_fields; cbn [In];
              repeat first [left; reflexivity | right]
            | ]).
    destruct Hin.
  - rewrite lookup_empty. intros [? Hv]. discriminate Hv.
Qed.

(** ** The identifier *)

(** C2. A render pass that copies a feed entry assigns the entry's
    [etsa_id] to the entity's identifier [_external_id]: the identifier is
    then the one the entity was constructed with only when the two agree. *)
Theorem render_pass_overwrites_external_id :
  forall (manager : VICEmergencyFeedEntityManager.t) (self self' : t)
         (external_id : pyval) (feed_entry : FeedEntry.t),
    self !! "_external_id" = Some external_id ->
    VICEmergencyFeedEntityManager.get_entry manager external_id
    = Returned (Some feed_entry) ->
    async_update manager self = (Returned tt, self') ->
    self' !! "_external_id" = Some (FeedEntry.etsa_id feed_entry).
Proof.
  intros manager self self' external_id feed_entry Hid Hget Hrun.
  destruct (self !! "_feed_manager") as [r|] eqn:Hr.
  - rewrite (async_update_present _ _ _ _ _ Hid Hr Hget) in Hrun.
    apply update_from_feed_returned in Hrun
      as (c & l & lat & lon & _ & _ & _ & _ & _ & _ & _ & _ & _ & _ & _
          & _ & _ & _ & H & _).
    exact H.
  - unfold async_update, bind in Hrun.
    rewrite (load_present _ _ _ Hid), (load_missing _ _ Hr) in Hrun.
    discriminate Hrun.
Qed.

Lemma render_pass_overwrites_external_id_witness :
  sample_entity !! "_external_id" = Some (PStr "12345")
  /\ sample_rendered !! "_external_id" = Some (PStr "E-777").
Proof.
  split; [reflexivity|].
  apply (render_pass_overwrites_external_id sample_manager sample_entity
           sample_rendered (PStr "12345") sample_entry);
    reflexivity.
Defined.

(** ** The exposed attributes *)

(** C3. After the first render pass of an entity has copied a feed entry,
    [device_state_attributes] returns a mapping that has neither the key
    "id" nor the key "sourceTitle", whatever the entry holds: [_id] and
    [_sourceTitle] are still the [None] of the constructor.  The thirteen
    other attribute names are in the mapping when the fields of the entry
    are all non-empty. *)
Theorem rendered_attributes_lack_id_and_sourceTitle :
  forall (manager : VICEmergencyFeedEntityManager.t)
         (feed_manager external_id : pyval) (feed_entry : FeedEntry.t)
         (self' : t),
    VICEmergencyFeedEntityManager.get_entry manager external_id
    = Returned (Some feed_entry) ->
    async_update manager (new_entity feed_manager external_id)
    = (Returned tt, self') ->
    exists attributes,
      device_state_attributes self' = (Returned attributes, self')
      /\ attributes !! ATTR_ID = None
      /\ attributes !! ATTR_SOURCE_TITLE = None
      /\ (all_fields_non_empty feed_entry ->
          forall key, In key copied_attributes ->
                      is_Some (attributes !! key)).
Proof.
  intros manager feed_manager external_id feed_entry self' Hget Hrun.
  rewrite (async_update_present _ _ _ _ _
             (new_entity_external_id _ _) (new_entity_feed_manager _ _) Hget)
    in Hrun.
  apply update_from_feed_returned in Hrun
    as (c & l & lat & lon & _ & _ & _ & _ & Hname & Hdist & Hlat & Hlon
        & Hattr & Hpub & Hloc & Hc1 & Hc2 & Hdesc & Hext & Horg & Hres
        & Hsize & Hfmt & Hstatus & Htype & Hstate & Hframe).
  assert (Hid : self' !! "_id" = Some PNone).
  { rewrite Hframe; [apply new_entity_id|].
    unfold assigned_by_update; cbn [In].
    intros H; repeat (destruct H as [H|H]; [discriminate H|]); exact H. }
  assert (Htitle : self' !! "_sourceTitle" = Some PNone).
  { rewrite Hframe; [apply new_entity_sourceTitle|].
    unfold assigned_by_update; cbn [In].
    intros H; repeat (destruct H as [H|H]; [discriminate H|]); exact H. }
  destruct (device_state_attributes_returns self') as [attributes Hattrs].
  { intros key field Hin. unfold attribute_fields in Hin. cbn [In] in Hin.
    repeat (destruct Hin as [Hin|Hin];
            [apply pair_equal_spec in Hin as [_ <-]; eexists; eassumption|]).
    destruct Hin. }
  exists attributes. split; [exact Hattrs|].
  destruct (device_state_attributes_returned _ _ _ Hattrs) as [_ Hkeys].
  split; [|split].
  - destruct (Hkeys ATTR_ID "_id") as (v & Hv & ->);
      [unfold attribute_fields; cbn [In]; tauto|].
    rewrite Hid in Hv. injection Hv as <-. reflexivity.
  - destruct (Hkeys ATTR_SOURCE_TITLE "_sourceTitle") as (v & Hv & ->);
      [unfold attribute_fields; cbn [In]; tauto|].
    rewrite Htitle in Hv. injection Hv as <-. reflexivity.
  - intros (T1 & T2 & T3 & T4 & T5 & T6 & T7 & T8 & T9 & T10 & T11 & T12
            & T13) key Hin.
    unfold copied_attributes in Hin. cbn [In] in Hin.
    repeat (destruct Hin as [Hin|Hin];
            [ subst key;
              match goal with
              | |- is_Some (attributes !! ?k) =>
                  match eval cbv in
                        (find (fun p => String.eqb (fst p) k) attribute_fields)
                  with
                  | Some (_, ?f) =>
                      destruct (Hkeys k f) as (v & Hv & ->);
                      [unfold attribute_fields; cbn [In]; tauto|]
                  end
              end;
              match type of Hv with
              | self' !! ?f = _ =>
                  match goal with
                  | Hf : self' !! f = Some _ |- _ =>
                      rewrite Hf in Hv; injection Hv as <-
                  end
              end;
              match goal with
              | T : truthy ?x = true |- context [truthy ?x] =>
                  rewrite T; eexists; reflexivity
              end
            | ]).
    destruct Hin.
Qed.

Lemma rendered_attributes_lack_id_and_sourceTitle_witness :
  exists attributes,
    device_state_attributes sample_rendered
    = (Returned attributes, sample_rendered)
    /\ attributes !! ATTR_ID = None
    /\ attributes !! ATTR_SOURCE_TITLE = None
    /\ (all_fields_non_empty sample_entry ->
        forall key, In key copied_attributes -> is_Some (attributes !! key)).
Proof.
  apply (rendered_attributes_lack_id_and_sourceTitle sample_manager
           (PObject 0) (PStr "12345") sample_entry sample_rendered);
    reflexivity.
Defined.

(** C4. When [device_state_attributes] returns a mapping, each listed
    attribute name maps to the value of its field exactly when that value
    is truthy or a boolean, and is absent otherwise; no other name is in
    the mapping.  With status the empty string and statewide [False], the
    mapping has statewide: [False] and no status key. *)
Theorem attributes_keep_truthy_or_boolean :
  forall (self : t) (attributes : gmap string pyval),
    fst (device_state_attributes self) = Returned attributes ->
    (forall key field, In (key, field) attribute_fields ->
       exists value,
         self !! field = Some value
         /\ attributes !! key
            = if truthy value || isinstance_bool value then Some value
              else None)
    /\ (forall key, is_Some (attributes !! key) ->
                    exists field, In (key, field) attribute_fields)
    /\ (self !! "_status" = Some (PStr "") ->
        self !! "_statewide" = Some (PBool false) ->
        attributes !! "statewide" = Some (PBool false)
        /\ attributes !! "status" = None).
Proof.
  intros self attributes H.
  destruct (device_state_attributes self) as [r self'] eqn:Hrun.
  cbn [fst] in H. subst r.
  destruct (device_state_attributes_returned _ _ _ Hrun) as [_ Hkeys].
  split; [exact Hkeys|]. split.
  - intros key. apply (device_state_attributes_keys _ _ _ _ Hrun).
  - intros Hstatus Hstate. split.
    + destruct (Hkeys ATTR_STATEWIDE "_statewide") as (v & Hv & Hk);
        [unfold attribute_fields; cbn [In]; tauto|].
      rewrite Hstate in Hv. injection Hv as <-. exact Hk.
    + destruct (Hkeys ATTR_STATUS "_status") as (v & Hv & Hk);
        [unfold attribute_fields; cbn [In]; tauto|].
      rewrite Hstatus in Hv. injection Hv as <-. exact Hk.
Qed.

Lemma attributes_keep_truthy_or_boolean_witness :
  quiet_rendered !! "_status" = Some (PStr "")
  /\ quiet_rendered !! "_statewide" = Some (PBool false)
  /\ exists attributes,
       fst (device_state_attributes quiet_rendered) = Returned attributes
       /\ attributes !! "statewide" = Some (PBool false)
       /\ attributes !! "status" = None.
Proof.
  split; [reflexivity|]. split; [reflexivity|].
  destruct (device_state_attributes quiet_rendered) as [[attributes|e] s]
    eqn:Hrun; [|discriminate Hrun].
  exists attributes. split; [reflexivity|].
  apply (attributes_keep_truthy_or_boolean quiet_rendered attributes);
    [rewrite Hrun|..]; reflexivity.
Defined.

(** ** The composite name *)

(** C5. When a render pass copies a feed entry, the entry's category1 and
    location are strings and the [name] of the entity is category1, then
    " - ", then location. *)
Theorem name_is_category1_dash_location :
  forall (manager : VICEmergencyFeedEntityManager.t) (self self' : t)
         (external_id : pyval) (feed_entry : FeedEntry.t),
    self !! "_external_id" = Some external_id ->
    VICEmergencyFeedEntityManager.get_entry manager external_id
    = Returned (Some feed_entry) ->
    async_update manager self = (Returned tt, self') ->
    exists category1 location,
      FeedEntry.category1 feed_entry = PStr category1
      /\ FeedEntry.location feed_entry = PStr location
      /\ name self' = (Returned (PStr (category1 ++ " - " ++ location)), self').
Proof.
  intros manager self self' external_id feed_entry Hid Hget Hrun.
  destruct (self !! "_feed_manager") as [r|] eqn:Hr.
  - rewrite (async_update_present _ _ _ _ _ Hid Hr Hget) in Hrun.
    apply update_from_feed_returned in Hrun
      as (c & l & lat & lon & Hc & Hl & _ & _ & Hname & _).
    exists c, l. split; [exact Hc|]. split; [exact Hl|].
    unfold name. apply load_present. exact Hname.
  - unfold async_update, bind in Hrun.
    rewrite (load_present _ _ _ Hid), (load_missing _ _ Hr) in Hrun.
    discriminate Hrun.
Qed.

Lemma name_is_category1_dash_location_witness :
  exists category1 location,
    FeedEntry.category1 sample_entry = PStr category1
    /\ FeedEntry.location sample_entry = PStr location
    /\ name sample_rendered
       = (Returned (PStr (category1 ++ " - " ++ location)), sample_rendered).
Proof.
  apply (name_is_category1_dash_location sample_manager sample_entity
           sample_rendered (PStr "12345") sample_entry);
    reflexivity.
Defined.

(** ** Looking an entry up *)

(** C6. [get_entry] returns [None], and does not raise, for every hashable
    identifier that is not a key of the feed manager's entries, and returns
    the entry for every identifier that is one. *)
Theorem get_entry_absent_or_present :
  forall (manager : VICEmergencyFeedEntityManager.t),
    (forall external_id : pyval,
        hashable external_id = true ->
        (forall s, external_id = PStr s ->
                   feed_entries
                     (VICEmergencyFeedEntityManager._feed_manager manager)
                   !! s = None) ->
        VICEmergencyFeedEntityManager.get_entry manager external_id
        = Returned None)
    /\ (forall (s : string) (feed_entry : FeedEntry.t),
           feed_entries
             (VICEmergencyFeedEntityManager._feed_manager manager) !! s
           = Some feed_entry ->
           VICEmergencyFeedEntityManager.get_entry manager (PStr s)
           = Returned (Some feed_entry)).
Proof.
  intros manager. split.
  - intros external_id Hhash Habsent.
    unfold VICEmergencyFeedEntityManager.get_entry, dict_get.
    rewrite Hhash.
    destruct external_id; try reflexivity.
    now rewrite (Habsent _ eq_refl).
  - intros s feed_entry Hs.
    unfold VICEmergencyFeedEntityManager.get_entry, dict_get.
    cbn [hashable]. now rewrite Hs.
Qed.

Lemma get_entry_absent_or_present_witness :
  VICEmergencyFeedEntityManager.get_entry sample_manager (PStr "E-777")
  = Returned None
  /\ VICEmergencyFeedEntityManager.get_entry sample_manager (PStr "12345")
     = Returned (Some sample_entry).
Proof.
  split.
  - apply (proj1 (get_entry_absent_or_present sample_manager));
      [reflexivity|].
    intros s Hs. injection Hs as <-. reflexivity.
  - apply (proj2 (get_entry_absent_or_present sample_manager)).
    reflexivity.
Defined.

(** ** A render pass without an entry *)

(** C7. A render pass whose lookup finds no entry leaves the entity as it
    is, so [name], [distance], [latitude], [longitude], the icon and the
    attribute mapping are what they were; it returns without an error when
    the back-reference to the manager is set. *)
Theorem render_pass_without_entry_keeps_display :
  forall (manager : VICEmergencyFeedEntityManager.t) (self : t)
         (external_id : pyval),
    self !! "_external_id" = Some external_id ->
    VICEmergencyFeedEntityManager.get_entry manager external_id
    = Returned None ->
    let self' := snd (async_update manager self) in
    self' = self
    /\ name self' = name self
    /\ distance self' = distance self
    /\ latitude self' = latitude self
    /\ longitude self' = longitude self
    /\ icon self' = icon self
    /\ device_state_attributes self' = device_state_attributes self
    /\ (forall r, self !! "_feed_manager" = Some r ->
                  async_update manager self = (Returned tt, self)).
Proof.
  intros manager self external_id Hid Hget self'.
  destruct (async_update_absent manager self external_id Hid Hget)
    as [Hsame Hret].
  subst self'. rewrite Hsame.
  repeat (split; [reflexivity|]). exact Hret.
Qed.

Lemma render_pass_without_entry_keeps_display_witness :
  snd (async_update sample_manager sample_rendered) = sample_rendered
  /\ name sample_rendered
     = (Returned (PStr "Fire - Ballarat"), sample_rendered)
  /\ async_update sample_manager sample_rendered
     = (Returned tt, sample_rendered).
Proof.
  destruct (render_pass_without_entry_keeps_display sample_manager
              sample_rendered (PStr "E-777") eq_refl eq_refl)
    as (Hsame & _ & _ & _ & _ & _ & _ & Hret).
  split; [exact Hsame|]. split; [reflexivity|].
  apply (Hret (PObject 0)). reflexivity.
Defined.

(** ** Removal of the entity *)

(** C8, as stated, fails: when the release of the delete subscription
    raises, the update subscription stays live. *)
Lemma update_subscription_survives_failed_release :
  async_will_remove_from_hass failing_host
    (subscribed 1 2 sample_entity, [1; 2])
  = (Raised (HostError 1), (subscribed 1 2 sample_entity, [1; 2]))
  /\ snd (failing_host 2 (snd (failing_host 1 [1; 2]))) = [1]
  /\ ~ releases_both_unconditionally.
Proof.
  split; [reflexivity|]. split; [reflexivity|].
  intros H.
  specialize (H (list nat) failing_host (subscribed 1 2 sample_entity) 1 2
                [1; 2] eq_refl eq_refl).
  apply pair_equal_spec in H as [_ H]. discriminate H.
Qed.

(** C8, amended. [async_will_remove_from_hass] releases the delete
    subscription and then the update subscription: when the first release
    returns, the second one runs on the state the first left and its
    outcome is the outcome of the removal; when the first release raises,
    the exception propagates and the second release does not run. *)
Theorem removal_releases_in_sequence :
  forall (World : Type) (invoke : nat -> M World unit) (self : t)
         (h_delete h_update : nat) (w : World),
    self !! "_remove_signal_delete" = Some (PFunc h_delete) ->
    self !! "_remove_signal_update" = Some (PFunc h_update) ->
    (forall w1, invoke h_delete w = (Returned tt, w1) ->
       async_will_remove_from_hass invoke (self, w)
       = (fst (invoke h_update w1), (self, snd (invoke h_update w1))))
    /\ (forall e w1, invoke h_delete w = (Raised e, w1) ->
          async_will_remove_from_hass invoke (self, w)
          = (Raised e, (self, w1))).
Proof.
  intros World invoke self h_delete h_update w Hd Hu.
  unfold async_will_remove_from_hass, bind, on_self, on_host.
  rewrite (load_present _ _ _ Hd). cbn [call].
  split.
  - intros w1 H1. rewrite H1, (load_present _ _ _ Hu). cbn [call].
    destruct (invoke h_update w1) as [r w2]. reflexivity.
  - intros e w1 H1. rewrite H1. reflexivity.
Qed.

Lemma removal_releases_in_sequence_witness :
  async_will_remove_from_hass failing_host
    (subscribed 3 2 sample_entity, [3; 2])
  = (Returned tt, (subscribed 3 2 sample_entity, []))
  /\ async_will_remove_from_hass failing_host
       (subscribed 1 2 sample_entity, [1; 2])
     = (Raised (HostError 1), (subscribed 1 2 sample_entity, [1; 2])).
Proof.
  split.
  - apply (proj1 (removal_releases_in_sequence (list nat) failing_host
                    (subscribed 3 2 sample_entity) 3 2 [3; 2]
                    eq_refl eq_refl) [2] eq_refl).
  - apply (proj2 (removal_releases_in_sequence (list nat) failing_host
                    (subscribed 1 2 sample_entity) 1 2 [1; 2]
                    eq_refl eq_refl) (HostError 1) [1; 2] eq_refl).
Defined.

(** ** Stopping the manager *)

(** C9. [async_stop] on a manager whose removal callback is still [None]
    returns without an error and leaves the manager and the host as they
    were, also when it is called again. *)
Theorem stop_before_start_is_a_no_op :
  forall (World : Type) (invoke : nat -> M World unit)
         (manager : VICEmergencyFeedEntityManager.t) (w : World),
    VICEmergencyFeedEntityManager._track_time_remove_callback manager
    = PNone ->
    VICEmergencyFeedEntityManager.async_stop invoke (manager, w)
    = (Returned tt, (manager, w))
    /\ (VICEmergencyFeedEntityManager.async_stop invoke;;
        VICEmergencyFeedEntityManager.async_stop invoke) (manager, w)
       = (Returned tt, (manager, w)).
Proof.
  intros World invoke manager w Hcb.
  assert (H : VICEmergencyFeedEntityManager.async_stop invoke (manager, w)
              = (Returned tt, (manager, w))).
  { unfold VICEmergencyFeedEntityManager.async_stop, py_if, bind, on_self,
      gets, ret.
    rewrite Hcb. reflexivity. }
  split; [exact H|].
  unfold bind at 1. rewrite H. exact H.
Qed.

Lemma stop_before_start_is_a_no_op_witness :
  VICEmergencyFeedEntityManager.async_stop failing_host
    (sample_manager, [1; 2])
  = (Returned tt, (sample_manager, [1; 2])).
Proof.
  apply (proj1 (stop_before_start_is_a_no_op (list nat) failing_host
                  sample_manager [1; 2] eq_refl)).
Defined.

(** ** Attributes before the first copy *)

(** C10. On an entity that was constructed and whose render passes so far
    all found no entry, [device_state_attributes] raises the
    [AttributeError] of [_publication_date]: the constructor does not
    assign that field, and a render pass without an entry assigns
    nothing. *)
Theorem attributes_before_first_copy_raise :
  forall (feed_manager external_id : pyval)
         (managers : list VICEmergencyFeedEntityManager.t),
    Forall (fun manager =>
              VICEmergencyFeedEntityManager.get_entry manager external_id
              = Returned None) managers ->
    let self :=
      foldl (fun self manager => snd (async_update manager self))
        (new_entity feed_manager external_id) managers in
    self !! "_publication_date" = None
    /\ device_state_attributes self
       = (Raised (AttributeError "_publication_date"), self).
Proof.
  intros feed_manager external_id managers Habsent self.
  assert (Hself : self = new_entity feed_manager external_id).
  { subst self. induction Habsent as [|manager managers Hget _ IH].
    - reflexivity.
    - cbn [foldl].
      rewrite (proj1 (async_update_absent manager _ external_id
                        (new_entity_external_id _ _) Hget)).
      exact IH. }
  rewrite Hself. split.
  - apply new_entity_publication_date.
  - apply new_entity_raises.
Qed.

Lemma attributes_before_first_copy_raise_witness :
  device_state_attributes
    (snd (async_update sample_manager
            (new_entity (PObject 0) (PStr "99999"))))
  = (Raised (AttributeError "_publication_date"),
     snd (async_update sample_manager
            (new_entity (PObject 0) (PStr "99999")))).
Proof.
  refine (proj2 (attributes_before_first_copy_raise (PObject 0)
                   (PStr "99999") [sample_manager] _)).
  constructor; [reflexivity | constructor].
Defined.

(** ** What a render pass assigns *)

Lemma lookup_stores (assignments : list (string * pyval)) (self : t)
    (name : string) :
  stores assignments self !! name =
  match find (fun kv => String.eqb (fst kv) name) (rev assignments) with
  | Some kv => Some (snd kv)
  | None => self !! name
  end.
Proof.
  unfold stores.
  induction assignments as [|[k v] assignments IH] using rev_ind;
    [reflexivity|].
  rewrite foldl_app, rev_unit. cbn [foldl find fst snd].
  destruct (String.eqb_spec k name) as [->|Hne].
  - apply lookup_insert_eq.
  - rewrite lookup_insert_ne by exact Hne. exact IH.
Qed.

Lemma find_key_none (assignments : list (string * pyval)) (name : string) :
  ~ In name (map fst assignments) ->
  find (fun kv => String.eqb (fst kv) name) (rev assignments) = None.
Proof.
  intros Hnot.
  destruct (find _ _) as [kv|] eqn:Hfind; [|reflexivity].
  apply find_some in Hfind as [Hin Heq].
  apply String.eqb_eq in Heq. subst name.
  exfalso. apply Hnot. apply in_map. apply in_rev. exact Hin.
Qed.

Lemma find_key_some (assignments : list (string * pyval)) (name : string) :
  In name (map fst assignments) ->
  exists kv, find (fun kv => String.eqb (fst kv) name) (rev assignments)
             = Some kv.
Proof.
  intros Hin.
  destruct (find _ _) as [kv|] eqn:Hfind; [exists kv; reflexivity|].
  exfalso. apply in_map_iff in Hin as [kv [<- Hin]].
  apply in_rev in Hin.
  apply (find_none _ _ Hfind) in Hin.
  rewrite String.eqb_refl in Hin. discriminate Hin.
Qed.

Lemma stores_frame (assignments : list (string * pyval)) (self : t)
    (name : string) :
  ~ In name (map fst assignments) ->
  stores assignments self !! name = self !! name.
Proof.
  intros Hnot. rewrite lookup_stores, (find_key_none _ _ Hnot). reflexivity.
Qed.

Lemma stores_is_Some (assignments : list (string * pyval)) (self : t)
    (name : string) :
  is_Some (self !! name) -> is_Some (stores assignments self !! name).
Proof.
  intros Hsome. rewrite lookup_stores.
  destruct (find _ _); [eexists; reflexivity | exact Hsome].
Qed.

(** Assignments to names that a later sequence assigns again leave no
    trace. *)
Lemma stores_absorb (later earlier : list (string * pyval)) (self : t) :
  (forall name, In name (map fst earlier) -> In name (map fst later)) ->
  stores later (stores earlier self) = stores later self.
Proof.
  intros Hsub. apply map_eq. intros name.
  rewrite (lookup_stores later), (lookup_stores later self).
  destruct (find _ (rev later)) as [kv|] eqn:Hfind; [reflexivity|].
  apply stores_frame. intros Hin. apply Hsub in Hin.
  destruct (find_key_some _ _ Hin) as [kv Hkv].
  rewrite Hkv in Hfind. discriminate Hfind.
Qed.

(** [_update_from_feed] ends as [performed] says and leaves the entity with
    the assignments of [performed] made. *)
Lemma update_from_feed_performed (feed_entry : FeedEntry.t) (self : t) :
  _update_from_feed feed_entry self
  = (fst (performed feed_entry), stores (snd (performed feed_entry)) self).
Proof.
  unfold _update_from_feed, performed, bind, liftO, store.
  destruct (py_add (FeedEntry.category1 feed_entry) (PStr " - "))
    as [v|e]; [|reflexivity].
  destruct (py_add v (FeedEntry.location feed_entry))
    as [v_name|e]; [|reflexivity].
  destruct (py_getitem (FeedEntry.coordinates feed_entry) 0)
    as [lat|e]; [|reflexivity].
  destruct (py_getitem (FeedEntry.coordinates feed_entry) 1)
    as [lon|e]; reflexivity.
Qed.

Lemma performed_assigned (feed_entry : FeedEntry.t) (name : string) :
  In name (map fst (snd (performed feed_entry))) ->
  In name assigned_by_update.
Proof.
  unfold performed.
  destruct (py_add (FeedEntry.category1 feed_entry) (PStr " - "))
    as [v|e]; [|intros []].
  destruct (py_add v (FeedEntry.location feed_entry))
    as [v_name|e]; [|intros []].
  destruct (py_getitem (FeedEntry.coordinates feed_entry) 0)
    as [lat|e];
    [destruct (py_getitem (FeedEntry.coordinates feed_entry) 1)
       as [lon|e]|];
    cbn; unfold assigned_by_update; cbn [In]; intros H;
    repeat (destruct H as [<-|H]; [tauto|]); destruct H.
Qed.

Lemma performed_returned_assigns_all (feed_entry : FeedEntry.t)
    (name : string) :
  fst (performed feed_entry) = Returned tt ->
  In name assigned_by_update ->
  In name (map fst (snd (performed feed_entry))).
Proof.
  unfold performed.
  destruct (py_add (FeedEntry.category1 feed_entry) (PStr " - "))
    as [v|e]; [|discriminate].
  destruct (py_add v (FeedEntry.location feed_entry))
    as [v_name|e]; [|discriminate].
  destruct (py_getitem (FeedEntry.coordinates feed_entry) 0)
    as [lat|e]; [|discriminate].
  destruct (py_getitem (FeedEntry.coordinates feed_entry) 1)
    as [lon|e]; [|discriminate].
  intros _. unfold assigned_by_update. cbn. intros H.
  repeat (destruct H as [<-|H]; [tauto|]). destruct H.
Qed.

(** The entity after [async_update] is the entity before, or the one
    [_update_from_feed] leaves for some entry. *)
Lemma async_update_state (manager : VICEmergencyFeedEntityManager.t)
    (self : t) :
  snd (async_update manager self) = self
  \/ exists feed_entry,
       async_update manager self = _update_from_feed feed_entry self.
Proof.
  unfold async_update, bind, liftO, ret.
  destruct (self !! "_external_id") as [external_id|] eqn:Hid;
    [rewrite (load_present _ _ _ Hid)
    |rewrite (load_missing _ _ Hid); left; reflexivity].
  destruct (self !! "_feed_manager") as [r|] eqn:Hr;
    [rewrite (load_present _ _ _ Hr), (load_present _ _ _ Hid)
    |rewrite (load_missing _ _ Hr); left; reflexivity].
  destruct (VICEmergencyFeedEntityManager.get_entry manager external_id)
    as [[feed_entry|]|e]; [right|left|left]; try reflexivity.
  exists feed_entry. reflexivity.
Qed.

(** ** Further properties of the render pass *)

Lemma rendered_frame (managers : list VICEmergencyFeedEntityManager.t)
    (self : t) (name : string) :
  ~ In name assigned_by_update ->
  rendered managers self !! name = self !! name.
Proof.
  intros Hnot. unfold rendered. revert self.
  induction managers as [|manager managers IH]; intros self;
    [reflexivity|].
  cbn [foldl]. rewrite IH.
  destruct (async_update_state manager self) as [->|[feed_entry ->]];
    [reflexivity|].
  rewrite update_from_feed_performed. cbn [snd].
  apply stores_frame. intros Hin. apply Hnot.
  exact (performed_assigned _ _ Hin).
Qed.

(** X1. No render pass, whether it returns or raises, changes a field
    outside the eighteen that [_update_from_feed] assigns: the back
    reference to the manager, the two subscription handles, [_id] and
    [_sourceTitle] stay what they were through any sequence of passes. *)
Theorem render_passes_change_assigned_fields_only :
  forall (managers : list VICEmergencyFeedEntityManager.t) (self : t)
         (name : string),
    ~ In name assigned_by_update ->
    rendered managers self !! name = self !! name.
Proof. exact rendered_frame. Qed.

Lemma render_passes_change_assigned_fields_only_witness :
  rendered [sample_manager; empty_manager; sample_manager] sample_entity
    !! "_id"
  = Some PNone.
Proof.
  rewrite (render_passes_change_assigned_fields_only
             [sample_manager; empty_manager; sample_manager] sample_entity
             "_id").
  - reflexivity.
  - unfold assigned_by_update. cbn [In].
    intros H. repeat (destruct H as [H|H]; [discriminate H|]). exact H.
Defined.

(** X2. When the entry's category1 or location is not a string,
    [_update_from_feed] raises [TypeError] at its first statement and the
    entity is exactly what it was. *)
Theorem copy_without_name_parts_changes_nothing :
  forall (feed_entry : FeedEntry.t) (self : t),
    (forall s, FeedEntry.category1 feed_entry <> PStr s)
    \/ (forall s, FeedEntry.location feed_entry <> PStr s) ->
    _update_from_feed feed_entry self = (Raised TypeError, self).
Proof.
  intros feed_entry self H.
  rewrite update_from_feed_performed. unfold performed.
  destruct (FeedEntry.category1 feed_entry) as [| | | |c| | | | | |] eqn:Hc;
    try reflexivity.
  cbv beta iota delta [py_add].
  destruct (FeedEntry.location feed_entry) as [| | | |l| | | | | |] eqn:Hl;
    try reflexivity.
  destruct H as [H|H]; exfalso; eapply H; reflexivity.
Qed.

Lemma copy_without_name_parts_changes_nothing_witness :
  _update_from_feed unnamed_entry sample_rendered
  = (Raised TypeError, sample_rendered).
Proof.
  apply (copy_without_name_parts_changes_nothing unnamed_entry
           sample_rendered).
  right. intros s H. discriminate H.
Defined.

(** X3. When category1 and location are strings but the coordinates have no
    first component, [_update_from_feed] raises the error of the subscript
    after it has assigned the name and the distance, and nothing else; when
    only the second component is missing, the latitude is assigned too. *)
Theorem copy_with_bad_coordinates_is_partial :
  forall (feed_entry : FeedEntry.t) (self : t) (c l : string) (e : exn),
    FeedEntry.category1 feed_entry = PStr c ->
    FeedEntry.location feed_entry = PStr l ->
    (py_getitem (FeedEntry.coordinates feed_entry) 0 = Raised e ->
     _update_from_feed feed_entry self
     = (Raised e,
        <["_distance" := FeedEntry.distance_to_home feed_entry]>
          (<["_name" := PStr (c ++ " - " ++ l)]> self)))
    /\ (forall lat,
          py_getitem (FeedEntry.coordinates feed_entry) 0 = Returned lat ->
          py_getitem (FeedEntry.coordinates feed_entry) 1 = Raised e ->
          _update_from_feed feed_entry self
          = (Raised e,
             <["_latitude" := lat]>
               (<["_distance" := FeedEntry.distance_to_home feed_entry]>
                  (<["_name" := PStr (c ++ " - " ++ l)]> self)))).
Proof.
  intros feed_entry self c l e Hc Hl.
  rewrite update_from_feed_performed. unfold performed.
  rewrite Hc, Hl. cbv beta iota delta [py_add].
  rewrite <- string_append_assoc.
  split.
  - intros ->. reflexivity.
  - intros lat -> ->. reflexivity.
Qed.

Lemma copy_with_bad_coordinates_is_partial_witness :
  _update_from_feed (with_coordinates PNone) sample_rendered
  = (Raised TypeError,
     <["_distance" := PFloat (S754_finite false 3 1)]>
       (<["_name" := PStr "Rescue - Geelong"]> sample_rendered))
  /\ _update_from_feed
       (with_coordinates (PTuple [PFloat (S754_finite true 76 (-1))]))
       sample_rendered
     = (Raised IndexError,
        <["_latitude" := PFloat (S754_finite true 76 (-1))]>
          (<["_distance" := PFloat (S754_finite false 3 1)]>
             (<["_name" := PStr "Rescue - Geelong"]> sample_rendered))).
Proof.
  split.
  - apply (proj1 (copy_with_bad_coordinates_is_partial
                    (with_coordinates PNone) sample_rendered
                    "Rescue" "Geelong" TypeError eq_refl eq_refl)).
    reflexivity.
  - apply (proj2 (copy_with_bad_coordinates_is_partial
                    (with_coordinates
                       (PTuple [PFloat (S754_finite true 76 (-1))]))
                    sample_rendered
                    "Rescue" "Geelong" IndexError eq_refl eq_refl)
             (PFloat (S754_finite true 76 (-1))));
      reflexivity.
Defined.

(** X4. Copying the same entry a second time changes nothing: it ends as
    the first copy did and leaves the entity the first copy left, also when
    the copy raises part way. *)
Theorem copy_is_idempotent :
  forall (feed_entry : FeedEntry.t) (self : t),
    _update_from_feed feed_entry (snd (_update_from_feed feed_entry self))
    = _update_from_feed feed_entry self.
Proof.
  intros feed_entry self.
  rewrite !update_from_feed_performed. cbn [snd].
  f_equal. apply stores_absorb. intros name H. exact H.
Qed.

(** X5. A copy that returns overwrites every field an earlier copy
    assigned: the entity after it is the same whether or not a copy of
    another entry, complete or cut short by an error, ran before. *)
Theorem last_copy_wins :
  forall (earlier later : FeedEntry.t) (self : t),
    fst (_update_from_feed later self) = Returned tt ->
    _update_from_feed later (snd (_update_from_feed earlier self))
    = _update_from_feed later self.
Proof.
  intros earlier later self Hret.
  rewrite !update_from_feed_performed in *. cbn [fst snd] in *.
  f_equal. apply stores_absorb. intros name Hin.
  apply (performed_returned_assigns_all _ _ Hret).
  exact (performed_assigned _ _ Hin).
Qed.

Lemma last_copy_wins_witness :
  _update_from_feed quiet_entry
    (snd (_update_from_feed (with_coordinates PNone)
            (snd (_update_from_feed sample_entry sample_entity))))
  = _update_from_feed quiet_entry
      (snd (_update_from_feed sample_entry sample_entity)).
Proof.
  apply (last_copy_wins (with_coordinates PNone) quiet_entry
           (snd (_update_from_feed sample_entry sample_entity))).
  reflexivity.
Defined.

(** ** Entities the constructor made *)

Lemma constructed_new_entity feed_manager external_id :
  constructed (new_entity feed_manager external_id).
Proof.
  intros name Hin. unfold init_fields in Hin. cbn [In] in Hin.
  unfold new_entity, __init__, bind, store. cbn [snd].
  repeat (destruct Hin as [<-|Hin];
          [lookup_steps; eexists; reflexivity|]).
  destruct Hin.
Qed.

Lemma constructed_async_update (manager : VICEmergencyFeedEntityManager.t)
    (self : t) :
  constructed self -> constructed (snd (async_update manager self)).
Proof.
  intros Hc.
  destruct (async_update_state manager self) as [->|[feed_entry ->]];
    [exact Hc|].
  rewrite update_from_feed_performed. cbn [snd].
  intros name Hin. apply stores_is_Some. exact (Hc name Hin).
Qed.

Lemma constructed_rendered (managers : list VICEmergencyFeedEntityManager.t)
    (self : t) :
  constructed self -> constructed (rendered managers self).
Proof.
  unfold rendered. revert self.
  induction managers as [|manager managers IH]; intros self Hc;
    [exact Hc|].
  cbn [foldl]. apply IH. apply constructed_async_update. exact Hc.
Qed.

Lemma publication_date_rendered
    (managers : list VICEmergencyFeedEntityManager.t) (self : t) :
  is_Some (self !! "_publication_date") ->
  is_Some (rendered managers self !! "_publication_date").
Proof.
  unfold rendered. revert self.
  induction managers as [|manager managers IH]; intros self Hp;
    [exact Hp|].
  cbn [foldl]. apply IH.
  destruct (async_update_state manager self) as [->|[feed_entry ->]];
    [exact Hp|].
  rewrite update_from_feed_performed. cbn [snd].
  apply stores_is_Some. exact Hp.
Qed.

Lemma constructed_attributes (self : t) :
  constructed self ->
  (self !! "_publication_date" = None
   /\ device_state_attributes self
      = (Raised (AttributeError "_publication_date"), self))
  \/ (is_Some (self !! "_publication_date")
      /\ exists attributes,
           device_state_attributes self = (Returned attributes, self)).
Proof.
  intros Hc.
  destruct (self !! "_publication_date") as [v|] eqn:Hp.
  - right. split; [eexists; reflexivity|].
    apply device_state_attributes_returns.
    intros key field Hin. unfold attribute_fields in Hin. cbn [In] in Hin.
    repeat (destruct Hin as [Hin|Hin];
            [ apply pair_equal_spec in Hin as [_ <-];
              first [ rewrite Hp; eexists; reflexivity
                    | apply Hc; unfold init_fields; cbn [In]; tauto ]
            | ]).
    destruct Hin.
  - left. split; [reflexivity|].
    apply device_state_attributes_raises; try exact Hp;
      apply Hc; unfold init_fields; cbn [In]; tauto.
Qed.

(** X6. Every field the constructor assigns is still there after any
    sequence of render passes, whether they return or raise: no method
    removes a field. *)
Theorem render_passes_keep_constructor_fields :
  forall (feed_manager external_id : pyval)
         (managers : list VICEmergencyFeedEntityManager.t) (name : string),
    In name init_fields ->
    is_Some (rendered managers (new_entity feed_manager external_id)
               !! name).
Proof.
  intros feed_manager external_id managers.
  apply constructed_rendered, constructed_new_entity.
Qed.

Lemma render_passes_keep_constructor_fields_witness :
  is_Some (rendered [sample_manager; empty_manager] sample_entity
             !! "_remove_signal_update").
Proof.
  apply (render_passes_keep_constructor_fields (PObject 0) (PStr "12345")
           [sample_manager; empty_manager] "_remove_signal_update").
  unfold init_fields. cbn [In]. tauto.
Defined.

(** X7. On an entity the constructor made, after any sequence of render
    passes, the [icon] property never raises: it returns one of the nine
    icon names and leaves the entity as it is. *)
Theorem icon_never_raises :
  forall (feed_manager external_id : pyval)
         (managers : list VICEmergencyFeedEntityManager.t),
    let self := rendered managers (new_entity feed_manager external_id) in
    exists i, icon self = (Returned i, self) /\ In i icons.
Proof.
  intros feed_manager external_id managers self.
  assert (Hc : constructed self)
    by apply constructed_rendered, constructed_new_entity.
  destruct (Hc "_status") as [status Hs];
    [unfold init_fields; cbn [In]; tauto|].
  destruct (Hc "_category1") as [category1 Hc1];
    [unfold init_fields; cbn [In]; tauto|].
  destruct (Hc "_category2") as [category2 Hc2];
    [unfold init_fields; cbn [In]; tauto|].
  rewrite (icon_unfold _ _ _ _ Hs Hc1 Hc2).
  eexists. split; [reflexivity|].
  unfold icons. cbn [In].
  repeat match goal with
         | |- context [py_eq_str ?a ?b] => destruct (py_eq_str a b)
         end; cbn [orb andb]; tauto.
Qed.

(** X8. On an entity the constructor made, after any sequence of render
    passes, [device_state_attributes] either returns a mapping, which it
    does exactly when [_publication_date] has been assigned, or raises the
    [AttributeError] of [_publication_date]; it raises nothing else and
    leaves the entity as it is. *)
Theorem attributes_raise_only_for_publication_date :
  forall (feed_manager external_id : pyval)
         (managers : list VICEmergencyFeedEntityManager.t),
    let self := rendered managers (new_entity feed_manager external_id) in
    (self !! "_publication_date" = None
     /\ device_state_attributes self
        = (Raised (AttributeError "_publication_date"), self))
    \/ (is_Some (self !! "_publication_date")
        /\ exists attributes,
             device_state_attributes self = (Returned attributes, self)).
Proof.
  intros feed_manager external_id managers self.
  apply constructed_attributes.
  apply constructed_rendered, constructed_new_entity.
Qed.

(** X9. Once a render pass has copied an entry into an entity the
    constructor made, [device_state_attributes] returns a mapping after
    every later sequence of render passes, whatever they find and however
    they end. *)
Theorem attributes_return_after_first_copy :
  forall (manager : VICEmergencyFeedEntityManager.t)
         (feed_manager external_id : pyval) (feed_entry : FeedEntry.t)
         (self' : t) (managers : list VICEmergencyFeedEntityManager.t),
    VICEmergencyFeedEntityManager.get_entry manager external_id
    = Returned (Some feed_entry) ->
    async_update manager (new_entity feed_manager external_id)
    = (Returned tt, self') ->
    exists attributes,
      device_state_attributes (rendered managers self')
      = (Returned attributes, rendered managers self').
Proof.
  intros manager feed_manager external_id feed_entry self' managers
    Hget Hrun.
  assert (Hc : constructed self').
  { replace self'
      with (snd (async_update manager
                   (new_entity feed_manager external_id)))
      by (rewrite Hrun; reflexivity).
    apply constructed_async_update, constructed_new_entity. }
  rewrite (async_update_present _ _ _ _ _
             (new_entity_external_id _ _) (new_entity_feed_manager _ _) Hget)
    in Hrun.
  apply update_from_feed_returned in Hrun
    as (c & l & lat & lon & _ & _ & _ & _ & _ & _ & _ & _ & _ & Hpub & _).
  destruct (constructed_attributes (rendered managers self'))
    as [[Hnone _]|[_ Hret]].
  - apply constructed_rendered. exact Hc.
  - assert (Hsome : is_Some (rendered managers self' !! "_publication_date"))
      by (apply publication_date_rendered; rewrite Hpub; eexists;
          reflexivity).
    rewrite Hnone in Hsome. destruct Hsome as [v Hv]. discriminate Hv.
  - exact Hret.
Qed.

Lemma attributes_return_after_first_copy_witness :
  exists attributes,
    device_state_attributes
      (rendered [empty_manager; sample_manager] sample_rendered)
    = (Returned attributes,
       rendered [empty_manager; sample_manager] sample_rendered).
Proof.
  apply (attributes_return_after_first_copy sample_manager (PObject 0)
           (PStr "12345") sample_entry sample_rendered
           [empty_manager; sample_manager]);
    reflexivity.
Defined.

(** X10. After a render pass has copied an entry, the next pass looks the
    entry up under the entry's [etsa_id]: when that is not a key of the
    feed's entries (as when it is [None] or a number), the pass returns and
    changes nothing, whatever the feed holds under the identifier the
    entity was constructed with. *)
Theorem entity_is_frozen_after_first_copy :
  forall (manager later : VICEmergencyFeedEntityManager.t) (self self' : t)
         (external_id : pyval) (feed_entry : FeedEntry.t),
    self !! "_external_id" = Some external_id ->
    VICEmergencyFeedEntityManager.get_entry manager external_id
    = Returned (Some feed_entry) ->
    async_update manager self = (Returned tt, self') ->
    hashable (FeedEntry.etsa_id feed_entry) = true ->
    (forall s, FeedEntry.etsa_id feed_entry = PStr s ->
               feed_entries
                 (VICEmergencyFeedEntityManager._feed_manager later) !! s
               = None) ->
    async_update later self' = (Returned tt, self').
Proof.
  intros manager later self self' external_id feed_entry Hid Hget Hrun
    Hhash Habsent.
  destruct (self !! "_feed_manager") as [r|] eqn:Hr.
  - rewrite (async_update_present _ _ _ _ _ Hid Hr Hget) in Hrun.
    apply update_from_feed_returned in Hrun
      as (c & l & lat & lon & _ & _ & _ & _ & _ & _ & _ & _ & _ & _ & _
          & _ & _ & _ & Hext & _ & _ & _ & _ & _ & _ & _ & Hframe).
    assert (Hr' : self' !! "_feed_manager" = Some r).
    { rewrite Hframe; [exact Hr|].
      unfold assigned_by_update; cbn [In].
      intros H; repeat (destruct H as [H|H]; [discriminate H|]); exact H. }
    apply (proj2 (async_update_absent later self' _ Hext
                    (ltac:(unfold VICEmergencyFeedEntityManager.get_entry,
                             dict_get; rewrite Hhash;
                           destruct (FeedEntry.etsa_id feed_entry);
                           try reflexivity;
                           now rewrite (Habsent _ eq_refl)))) r Hr').
  - unfold async_update, bind in Hrun.
    rewrite (load_present _ _ _ Hid), (load_missing _ _ Hr) in Hrun.
    discriminate Hrun.
Qed.

Lemma entity_is_frozen_after_first_copy_witness :
  VICEmergencyFeedEntityManager.get_entry sample_manager (PStr "12345")
  = Returned (Some sample_entry)
  /\ async_update sample_manager sample_rendered
     = (Returned tt, sample_rendered).
Proof.
  split; [reflexivity|].
  apply (entity_is_frozen_after_first_copy sample_manager sample_manager
           sample_entity sample_rendered (PStr "12345") sample_entry);
    try reflexivity.
  intros s H. injection H as <-. reflexivity.
Defined.

(** X11. After a render pass has copied an entry, [name] is category1,
    " - ", location; [distance] is the entry's distance to home; [latitude]
    is the first and [longitude] the second component of the entry's
    coordinates. *)
Theorem display_fields_after_copy :
  forall (feed_entry : FeedEntry.t) (self self' : t),
    _update_from_feed feed_entry self = (Returned tt, self') ->
    distance self'
    = (Returned (FeedEntry.distance_to_home feed_entry), self')
    /\ py_getitem (FeedEntry.coordinates feed_entry) 0
       = fst (latitude self')
    /\ py_getitem (FeedEntry.coordinates feed_entry) 1
       = fst (longitude self')
    /\ snd (latitude self') = self'
    /\ snd (longitude self') = self'.
Proof.
  intros feed_entry self self' Hrun.
  apply update_from_feed_returned in Hrun
    as (c & l & lat & lon & _ & _ & Hlat & Hlon & _ & Hd & Hla & Hlo & _).
  unfold distance, latitude, longitude.
  rewrite (load_present _ _ _ Hd), (load_present _ _ _ Hla),
    (load_present _ _ _ Hlo), Hlat, Hlon.
  repeat split; reflexivity.
Qed.

Lemma display_fields_after_copy_witness :
  distance sample_rendered
  = (Returned (PFloat (S754_finite false 5 0)), sample_rendered)
  /\ fst (latitude sample_rendered)
     = Returned (PFloat (S754_finite true 75 (-1)))
  /\ fst (longitude sample_rendered)
     = Returned (PFloat (S754_finite false 287 (-1))).
Proof.
  destruct (display_fields_after_copy sample_entry sample_entity
              sample_rendered eq_refl) as (Hd & Hla & Hlo & _).
  split; [exact Hd|]. split; [rewrite <- Hla|rewrite <- Hlo]; reflexivity.
Defined.

(** ** Removal before subscription *)

(** X12. [async_will_remove_from_hass] on an entity that was never added to
    the host (its two handles are the [None] of the constructor) raises
    [TypeError] on the first call and calls nothing on the host, however
    many render passes the entity has been through. *)
Theorem removal_before_subscription_raises :
  forall (World : Type) (invoke : nat -> M World unit)
         (feed_manager external_id : pyval)
         (managers : list VICEmergencyFeedEntityManager.t) (w : World),
    let self := rendered managers (new_entity feed_manager external_id) in
    async_will_remove_from_hass invoke (self, w)
    = (Raised TypeError, (self, w)).
Proof.
  intros World invoke feed_manager external_id managers w self.
  assert (Hd : self !! "_remove_signal_delete" = Some PNone).
  { subst self. rewrite rendered_frame.
    - unfold new_entity, __init__, bind, store. cbn [snd].
      lookup_steps. reflexivity.
    - unfold assigned_by_update; cbn [In].
      intros H; repeat (destruct H as [H|H]; [discriminate H|]); exact H. }
  unfold async_will_remove_from_hass, bind, on_self, on_host.
  rewrite (load_present _ _ _ Hd). reflexivity.
Qed.

(** ** Starting and stopping the manager *)

(** X13. [async_init] stores the callable the host's timer registration
    returns, and [async_stop] then calls it; [async_stop] does not clear
    the stored callable, so a second [async_stop] calls it again. *)
Theorem stop_after_start_calls_the_removal :
  forall (World : Type) (invoke : nat -> M World unit)
         (track : pyval -> M World pyval)
         (manager : VICEmergencyFeedEntityManager.t) (w w1 : World)
         (h : nat),
    track (VICEmergencyFeedEntityManager._scan_interval manager) w
    = (Returned (PFunc h), w1) ->
    let started :=
      {| VICEmergencyFeedEntityManager._feed_manager :=
           VICEmergencyFeedEntityManager._feed_manager manager;
         VICEmergencyFeedEntityManager._scan_interval :=
           VICEmergencyFeedEntityManager._scan_interval manager;
         VICEmergencyFeedEntityManager._track_time_remove_callback :=
           PFunc h |} in
    VICEmergencyFeedEntityManager.async_init track (manager, w)
    = (Returned tt, (started, w1))
    /\ VICEmergencyFeedEntityManager.async_stop invoke (started, w1)
       = (fst (invoke h w1), (started, snd (invoke h w1)))
    /\ (forall w2, invoke h w1 = (Returned tt, w2) ->
          (VICEmergencyFeedEntityManager.async_stop invoke;;
           VICEmergencyFeedEntityManager.async_stop invoke) (started, w1)
          = (fst (invoke h w2), (started, snd (invoke h w2)))).
Proof.
  intros World invoke track manager w w1 h Htrack started.
  assert (Hstop : forall w', VICEmergencyFeedEntityManager.async_stop invoke
                               (started, w')
                             = (fst (invoke h w'),
                                (started, snd (invoke h w')))).
  { intros w'.
    unfold VICEmergencyFeedEntityManager.async_stop, py_if, bind, on_self,
      on_host, gets, ret, truthy.
    cbn. destruct (invoke h w') as [r w'']. reflexivity. }
  split; [|split].
  - unfold VICEmergencyFeedEntityManager.async_init, bind, on_self, on_host,
      gets.
    rewrite Htrack. reflexivity.
  - apply Hstop.
  - intros w2 H2. unfold bind at 1. rewrite Hstop, H2. cbn [fst snd].
    apply Hstop.
Qed.

Lemma stop_after_start_calls_the_removal_witness :
  VICEmergencyFeedEntityManager.async_init sample_timer
    (sample_manager, [3; 2])
  = (Returned tt,
     (VICEmergencyFeedEntityManager.Build
        (VICEmergencyFeedEntityManager._feed_manager sample_manager)
        (PInt 300) (PFunc 7),
      [3; 2; 7]))
  /\ VICEmergencyFeedEntityManager.async_stop failing_host
       (VICEmergencyFeedEntityManager.Build
          (VICEmergencyFeedEntityManager._feed_manager sample_manager)
          (PInt 300) (PFunc 7),
        [3; 2; 7])
     = (Returned tt,
        (VICEmergencyFeedEntityManager.Build
           (VICEmergencyFeedEntityManager._feed_manager sample_manager)
           (PInt 300) (PFunc 7),
         [3; 2])).
Proof.
  destruct (stop_after_start_calls_the_removal (list nat) failing_host
              sample_timer sample_manager [3; 2] [3; 2; 7] 7 eq_refl)
    as (Hinit & Hstop & _).
  split; [exact Hinit | exact Hstop].
Defined.

(** ** Signals *)

Lemma string_append_nil_r (a : string) : (a ++ "" = a)%string.
Proof.
  induction a as [|c a IH]; [reflexivity|].
  change (String c (a ++ "") = String c a)%string. now rewrite IH.
Qed.

Lemma append_inj_l (p a b : string) : (p ++ a = p ++ b -> a = b)%string.
Proof.
  induction p as [|c p IH]; [intros H; exact H|].
  intros H. injection H as H. exact (IH H).
Qed.

Lemma str_format_delete (x : string) :
  str_format SIGNAL_DELETE_ENTITY x = "vicemergency_feed_delete_" ++ x.
Proof.
  change (str_format SIGNAL_DELETE_ENTITY x)
    with ("vicemergency_feed_delete_" ++ (x ++ "")).
  now rewrite string_append_nil_r.
Qed.

Lemma str_format_update (x : string) :
  str_format SIGNAL_UPDATE_ENTITY x = "vicemergency_feed_update_" ++ x.
Proof.
  change (str_format SIGNAL_UPDATE_ENTITY x)
    with ("vicemergency_feed_update_" ++ (x ++ "")).
  now rewrite string_append_nil_r.
Qed.

(** X14. The name of a signal is its prefix followed by the text of the
    identifier: a delete signal is never an update signal, and within one
    kind two signals are the same only for the same text. *)
Theorem signal_names_do_not_collide :
  forall a b : string,
    str_format SIGNAL_DELETE_ENTITY a = "vicemergency_feed_delete_" ++ a
    /\ str_format SIGNAL_UPDATE_ENTITY a = "vicemergency_feed_update_" ++ a
    /\ str_format SIGNAL_DELETE_ENTITY a <> str_format SIGNAL_UPDATE_ENTITY b
    /\ (str_format SIGNAL_DELETE_ENTITY a = str_format SIGNAL_DELETE_ENTITY b
        -> a = b)
    /\ (str_format SIGNAL_UPDATE_ENTITY a = str_format SIGNAL_UPDATE_ENTITY b
        -> a = b).
Proof.
  intros a b.
  split; [apply str_format_delete|]. split; [apply str_format_update|].
  rewrite !str_format_delete, !str_format_update.
  split; [|split].
  - intros H. discriminate H.
  - apply append_inj_l.
  - apply append_inj_l.
Qed.

Lemma signal_names_do_not_collide_witness :
  str_format SIGNAL_DELETE_ENTITY "12345" = "vicemergency_feed_delete_12345"
  /\ str_format SIGNAL_UPDATE_ENTITY "12345"
     = "vicemergency_feed_update_12345"
  /\ "12345" = "12345".
Proof.
  destruct (signal_names_do_not_collide "12345" "12345")
    as (Hd & Hu & _ & Hinj & _).
  split; [exact Hd|]. split; [exact Hu | exact (Hinj eq_refl)].
Defined.

(** X15. [async_added_to_hass] connects the delete callback and then the
    update callback to the signals named after the entity's current
    identifier and stores the two callables the host returns;
    [async_will_remove_from_hass] then calls exactly these two, the delete
    one first, however many render passes ran in between. *)
Theorem subscriptions_are_released_by_removal :
  forall (World : Type) (invoke : nat -> M World unit)
         (py_str : pyval -> string)
         (connect : string -> target -> M World pyval)
         (self : t) (external_id : pyval) (w w1 w2 : World) (h1 h2 : nat)
         (managers : list VICEmergencyFeedEntityManager.t),
    self !! "_external_id" = Some external_id ->
    connect ("vicemergency_feed_delete_" ++ py_str external_id)
      _delete_callback w
    = (Returned (PFunc h1), w1) ->
    connect ("vicemergency_feed_update_" ++ py_str external_id)
      _update_callback w1
    = (Returned (PFunc h2), w2) ->
    async_added_to_hass py_str connect (self, w)
    = (Returned tt, (subscribed h1 h2 self, w2))
    /\ (forall w3, invoke h1 w2 = (Returned tt, w3) ->
          async_will_remove_from_hass invoke
            (rendered managers (subscribed h1 h2 self), w2)
          = (fst (invoke h2 w3),
             (rendered managers (subscribed h1 h2 self),
              snd (invoke h2 w3)))).
Proof.
  intros World invoke py_str connect self external_id w w1 w2 h1 h2
    managers Hid Hc1 Hc2.
  split.
  - unfold async_added_to_hass, bind, on_self, on_host, store.
    rewrite (load_present _ _ _ Hid), str_format_delete, Hc1.
    assert (Hid' : <["_remove_signal_delete" := PFunc h1]> self
                     !! "_external_id" = Some external_id)
      by (rewrite lookup_insert_ne by discriminate; exact Hid).
    rewrite (load_present _ _ _ Hid'), str_format_update, Hc2.
    reflexivity.
  - intros w3 H3.
    set (self' := rendered managers (subscribed h1 h2 self)).
    assert (Hd : self' !! "_remove_signal_delete" = Some (PFunc h1)).
    { subst self'. rewrite rendered_frame.
      - unfold subscribed. lookup_steps. reflexivity.
      - unfold assigned_by_update; cbn [In].
        intros H; repeat (destruct H as [H|H]; [discriminate H|]); exact H. }
    assert (Hu : self' !! "_remove_signal_update" = Some (PFunc h2)).
    { subst self'. rewrite rendered_frame.
      - unfold subscribed. lookup_steps. reflexivity.
      - unfold assigned_by_update; cbn [In].
        intros H; repeat (destruct H as [H|H]; [discriminate H|]); exact H. }
    unfold async_will_remove_from_hass, bind, on_self, on_host.
    rewrite (load_present _ _ _ Hd). cbn [call].
    rewrite H3, (load_present _ _ _ Hu). cbn [call].
    destruct (invoke h2 w3) as [r w4]. reflexivity.
Qed.

Lemma subscriptions_are_released_by_removal_witness :
  async_added_to_hass sample_str sample_connect (sample_entity, [7])
  = (Returned tt, (subscribed 3 2 sample_entity, [7; 3; 2]))
  /\ async_will_remove_from_hass failing_host
       (rendered [sample_manager] (subscribed 3 2 sample_entity), [7; 3; 2])
     = (Returned tt,
        (rendered [sample_manager] (subscribed 3 2 sample_entity), [7])).
Proof.
  destruct (subscriptions_are_released_by_removal (list nat) failing_host
              sample_str sample_connect sample_entity (PStr "12345")
              [7] [7; 3] [7; 3; 2] 3 2 [sample_manager]
              eq_refl eq_refl eq_refl) as [Hadd Hrem].
  split; [exact Hadd|]. exact (Hrem [7; 2] eq_refl).
Defined.

(** X16. An entity that is added to the host after its first copy connects
    to the signals named after the entry's [etsa_id], while
    [_update_entity] and [_remove_entity] send on the signals named after
    the identifier they are given: the entity is reached only when the two
    identifiers have the same text. *)
Theorem signals_after_first_copy_follow_etsa_id :
  forall (World : Type) (py_str : pyval -> string)
         (connect : string -> target -> M World pyval)
         (send : string -> M World unit)
         (manager : VICEmergencyFeedEntityManager.t) (self self' : t)
         (external_id : pyval) (feed_entry : FeedEntry.t)
         (w w1 w2 : World) (f1 f2 : pyval),
    self !! "_external_id" = Some external_id ->
    VICEmergencyFeedEntityManager.get_entry manager external_id
    = Returned (Some feed_entry) ->
    async_update manager self = (Returned tt, self') ->
    connect ("vicemergency_feed_delete_"
             ++ py_str (FeedEntry.etsa_id feed_entry)) _delete_callback w
    = (Returned f1, w1) ->
    connect ("vicemergency_feed_update_"
             ++ py_str (FeedEntry.etsa_id feed_entry)) _update_callback w1
    = (Returned f2, w2) ->
    async_added_to_hass py_str connect (self', w)
    = (Returned tt,
       (<["_remove_signal_update" := f2]>
          (<["_remove_signal_delete" := f1]> self'), w2))
    /\ _update_entity py_str send external_id
       = send ("vicemergency_feed_update_" ++ py_str external_id)
    /\ _remove_entity py_str send external_id
       = send ("vicemergency_feed_delete_" ++ py_str external_id)
    /\ ("vicemergency_feed_update_" ++ py_str (FeedEntry.etsa_id feed_entry)
        = "vicemergency_feed_update_" ++ py_str external_id
        <-> py_str (FeedEntry.etsa_id feed_entry) = py_str external_id)
    /\ ("vicemergency_feed_delete_" ++ py_str (FeedEntry.etsa_id feed_entry)
        = "vicemergency_feed_delete_" ++ py_str external_id
        <-> py_str (FeedEntry.etsa_id feed_entry) = py_str external_id).
Proof.
  intros World py_str connect send manager self self' external_id
    feed_entry w w1 w2 f1 f2 Hid Hget Hrun Hc1 Hc2.
  assert (Hext : self' !! "_external_id"
                 = Some (FeedEntry.etsa_id feed_entry)).
  { destruct (self !! "_feed_manager") as [r|] eqn:Hr.
    - rewrite (async_update_present _ _ _ _ _ Hid Hr Hget) in Hrun.
      apply update_from_feed_returned in Hrun
        as (c & l & lat & lon & _ & _ & _ & _ & _ & _ & _ & _ & _ & _ & _
            & _ & _ & _ & H & _).
      exact H.
    - unfold async_update, bind in Hrun.
      rewrite (load_present _ _ _ Hid), (load_missing _ _ Hr) in Hrun.
      discriminate Hrun. }
  split; [|split; [|split; [|split]]].
  - unfold async_added_to_hass, bind, on_self, on_host, store.
    rewrite (load_present _ _ _ Hext), str_format_delete, Hc1.
    assert (Hext' : <["_remove_signal_delete" := f1]> self'
                      !! "_external_id"
                    = Some (FeedEntry.etsa_id feed_entry))
      by (rewrite lookup_insert_ne by discriminate; exact Hext).
    rewrite (load_present _ _ _ Hext'), str_format_update, Hc2.
    reflexivity.
  - unfold _update_entity. now rewrite str_format_update.
  - unfold _remove_entity. now rewrite str_format_delete.
  - split; [apply append_inj_l | intros ->; reflexivity].
  - split; [apply append_inj_l | intros ->; reflexivity].
Qed.

Lemma signals_after_first_copy_follow_etsa_id_witness :
  async_added_to_hass sample_str sample_connect (sample_rendered, [7])
  = (Returned tt, (subscribed 3 2 sample_rendered, [7; 3; 2]))
  /\ sample_str (FeedEntry.etsa_id sample_entry) = "E-777"
  /\ sample_str (PStr "12345") = "12345".
Proof.
  split; [|split; reflexivity].
  apply (signals_after_first_copy_follow_etsa_id (list nat) sample_str
           sample_connect (fun _ => ret tt) sample_manager sample_entity
           sample_rendered (PStr "12345") sample_entry
           [7] [7; 3] [7; 3; 2] (PFunc 3) (PFunc 2)
           eq_refl eq_refl eq_refl eq_refl eq_refl).
Defined.

(** ** Setting the platform up *)

(** X17. [async_setup_platform] on a configuration without a radius raises
    [KeyError] before it asks anything of the host: no session is fetched,
    no listener is registered and no update is scheduled. *)
Theorem setup_without_radius_raises :
  forall (World : Type) (get_session : M World pyval)
         (listen_once : string -> listener -> M World unit)
         (create_task : VICEmergencyFeedEntityManager.t -> M World unit)
         (make_feed_manager :
            pyval -> pyval -> pyval -> pyval -> pyval -> FeedManager)
         (hass_latitude hass_longitude SCAN_INTERVAL : pyval)
         (config : gmap string pyval) (w : World),
    config !! CONF_RADIUS = None ->
    async_setup_platform get_session listen_once create_task
      make_feed_manager hass_latitude hass_longitude SCAN_INTERVAL config w
    = (Raised KeyError, w).
Proof.
  intros World get_session listen_once create_task make_feed_manager
    hass_latitude hass_longitude SCAN_INTERVAL config w Hradius.
  unfold async_setup_platform, bind, liftO, dict_getitem.
  rewrite Hradius. reflexivity.
Qed.

Lemma setup_without_radius_raises_witness :
  async_setup_platform (ret PNone) sample_listen (fun _ => ret tt)
    (fun _ _ _ _ _ => {| feed_entries := ∅ |}) PNone PNone (PInt 300)
    (delete CONF_RADIUS sample_config) []
  = (Raised KeyError, []).
Proof.
  apply (setup_without_radius_raises (list string) (ret PNone)
           sample_listen (fun _ => ret tt)
           (fun _ _ _ _ _ => {| feed_entries := ∅ |}) PNone PNone (PInt 300)
           (delete CONF_RADIUS sample_config) []).
  reflexivity.
Defined.

(** X18. On a configuration with a radius, [async_setup_platform] builds
    one manager and hands that same manager to the start listener, to the
    stop listener and to the first update, in this order.  The feed manager
    gets the configured latitude and longitude, each replaced by the host's
    own when it is not configured, and the category filters, [None] when
    not configured; the scan interval is the configured one or
    [SCAN_INTERVAL].  Until the start listener runs, stopping this manager
    does nothing. *)
Theorem setup_registers_one_unstarted_manager :
  forall (World : Type) (invoke : nat -> M World unit)
         (get_session : M World pyval)
         (listen_once : string -> listener -> M World unit)
         (create_task : VICEmergencyFeedEntityManager.t -> M World unit)
         (make_feed_manager :
            pyval -> pyval -> pyval -> pyval -> pyval -> FeedManager)
         (hass_latitude hass_longitude SCAN_INTERVAL : pyval)
         (config : gmap string pyval) (radius websession : pyval)
         (w w1 w2 w3 : World),
    config !! CONF_RADIUS = Some radius ->
    get_session w = (Returned websession, w1) ->
    let manager :=
      VICEmergencyFeedEntityManager.__init__
        (make_feed_manager websession
           (PTuple [ default hass_latitude (config !! CONF_LATITUDE);
                     default hass_longitude (config !! CONF_LONGITUDE) ])
           radius
           (default PNone (config !! CONF_INC_CATEGORIES))
           (default PNone (config !! CONF_EXC_CATEGORIES)))
        (default SCAN_INTERVAL (config !! CONF_SCAN_INTERVAL)) in
    listen_once EVENT_HOMEASSISTANT_START (start_feed_manager manager) w1
    = (Returned tt, w2) ->
    listen_once EVENT_HOMEASSISTANT_STOP (stop_feed_manager manager) w2
    = (Returned tt, w3) ->
    async_setup_platform get_session listen_once create_task
      make_feed_manager hass_latitude hass_longitude SCAN_INTERVAL config w
    = create_task manager w3
    /\ (forall w', VICEmergencyFeedEntityManager.async_stop invoke
                     (manager, w')
                   = (Returned tt, (manager, w'))).
Proof.
  intros World invoke get_session listen_once create_task make_feed_manager
    hass_latitude hass_longitude SCAN_INTERVAL config radius websession
    w w1 w2 w3 Hradius Hsession manager Hstart Hstop.
  split.
  - unfold async_setup_platform, bind, liftO, dict_getitem.
    rewrite Hradius, Hsession.
    change (VICEmergencyFeedEntityManager.__init__ _ _) with manager.
    rewrite Hstart, Hstop. reflexivity.
  - intros w'. reflexivity.
Qed.

Lemma setup_registers_one_unstarted_manager_witness :
  async_setup_platform (ret (PObject 1)) sample_listen (fun _ => ret tt)
    (fun _ _ _ _ _ => {| feed_entries := ∅ |})
    (PFloat (S754_finite true 75 (-1))) (PFloat (S754_finite false 287 (-1)))
    (PInt 300) sample_config []
  = (Returned tt, [EVENT_HOMEASSISTANT_START; EVENT_HOMEASSISTANT_STOP]).
Proof.
  apply (proj1 (setup_registers_one_unstarted_manager (list string)
                  (fun _ => ret tt) (ret (PObject 1)) sample_listen
                  (fun _ => ret tt)
                  (fun _ _ _ _ _ => {| feed_entries := ∅ |})
                  (PFloat (S754_finite true 75 (-1)))
                  (PFloat (S754_finite false 287 (-1)))
                  (PInt 300) sample_config
                  (PFloat (S754_finite false 5 2)) (PObject 1)
                  [] [] [EVENT_HOMEASSISTANT_START]
                  [EVENT_HOMEASSISTANT_START; EVENT_HOMEASSISTANT_STOP]
                  eq_refl eq_refl eq_refl eq_refl)).
Defined.

(** ** The attributes after a copy *)

(** X19. After [_update_from_feed] has copied an entry into an entity the
    constructor made, [device_state_attributes] returns a mapping in which
    each of the thirteen copied attribute names maps to the entry's own
    value when that value is truthy or a boolean, and is absent otherwise;
    in particular "attribution" shows the entry's attribution. *)
Theorem attributes_show_the_entry :
  forall (feed_entry : FeedEntry.t) (self self' : t),
    constructed self ->
    _update_from_feed feed_entry self = (Returned tt, self') ->
    exists attributes,
      device_state_attributes self' = (Returned attributes, self')
      /\ forall key value,
           In (key, value) (shown_values feed_entry) ->
           attributes !! key
           = if truthy value || isinstance_bool value then Some value
             else None.
Proof.
  intros feed_entry self self' Hc Hrun.
  assert (Hc' : constructed self').
  { replace self' with (snd (_update_from_feed feed_entry self))
      by (rewrite Hrun; reflexivity).
    rewrite update_from_feed_performed. cbn [snd].
    intros name Hin. apply stores_is_Some. exact (Hc name Hin). }
  apply update_from_feed_returned in Hrun
    as (c & l & lat & lon & _ & _ & _ & _ & Hname & Hdist & Hlat & Hlon
        & Hattr & Hpub & Hloc & Hc1 & Hc2 & Hdesc & Hext & Horg & Hres
        & Hsize & Hfmt & Hstatus & Htype & Hstate & Hframe).
  destruct (constructed_attributes self' Hc')
    as [[Hnone _]|[_ [attributes Hattrs]]];
    [rewrite Hpub in Hnone; discriminate Hnone|].
  exists attributes. split; [exact Hattrs|].
  destruct (device_state_attributes_returned _ _ _ Hattrs) as [_ Hkeys].
  intros key value Hin. unfold shown_values in Hin. cbn [In] in Hin.
  repeat (destruct Hin as [Hin|Hin];
          [ apply pair_equal_spec in Hin as [<- <-];
            match goal with
            | |- attributes !! ?k = _ =>
                match eval cbv in
                      (find (fun p => String.eqb (fst p) k) attribute_fields)
                with
                | Some (_, ?f) =>
                    destruct (Hkeys k f) as (v & Hv & ->);
                    [unfold attribute_fields; cbn [In]; tauto|]
                end
            end;
            match type of Hv with
            | self' !! ?f = _ =>
                match goal with
                | Hf : self' !! f = Some _ |- _ =>
                    rewrite Hf in Hv; injection Hv as <-
                end
            end;
            reflexivity
          | ]).
  destruct Hin.
Qed.

Lemma attributes_show_the_entry_witness :
  exists attributes,
    device_state_attributes sample_rendered
    = (Returned attributes, sample_rendered)
    /\ attributes !! ATTR_ATTRIBUTION = Some (PStr "VICEmergency")
    /\ attributes !! ATTR_STATUS = Some (PStr "Safe").
Proof.
  destruct (attributes_show_the_entry sample_entry sample_entity
              sample_rendered (constructed_new_entity _ _) eq_refl)
    as (attributes & Hrun & Hshown).
  exists attributes. split; [exact Hrun|]. split.
  - apply (Hshown ATTR_ATTRIBUTION (PStr "VICEmergency")).
    unfold shown_values. cbn [In]. tauto.
  - apply (Hshown ATTR_STATUS (PStr "Safe")).
    unfold shown_values. cbn [In]. tauto.
Defined.

(** ** A render pass with an unhashable identifier *)

(** X20. When the entity's identifier is unhashable (a list or a dict, as
    an [etsa_id] copied from the feed can be), the render pass raises the
    [TypeError] of the lookup and changes nothing. *)
Theorem render_pass_with_unhashable_identifier_raises :
  forall (manager : VICEmergencyFeedEntityManager.t) (self : t)
         (external_id r : pyval),
    self !! "_external_id" = Some external_id ->
    self !! "_feed_manager" = Some r ->
    hashable external_id = false ->
    async_update manager self = (Raised TypeError, self).
Proof.
  intros manager self external_id r Hid Hr Hhash.
  unfold async_update, bind, liftO.
  rewrite (load_present _ _ _ Hid), (load_present _ _ _ Hr),
    (load_present _ _ _ Hid).
  unfold VICEmergencyFeedEntityManager.get_entry, dict_get.
  rewrite Hhash. reflexivity.
Qed.

Lemma render_pass_with_unhashable_identifier_raises_witness :
  async_update sample_manager
    (<["_external_id" := PList [PStr "12345"]]> sample_rendered)
  = (Raised TypeError,
     <["_external_id" := PList [PStr "12345"]]> sample_rendered).
Proof.
  apply (render_pass_with_unhashable_identifier_raises sample_manager
           (<["_external_id" := PList [PStr "12345"]]> sample_rendered)
           (PList [PStr "12345"]) (PObject 0));
    reflexivity.
Defined.
